(** * The colour server (src/app.js)

    A shallow embedding of the HTTP request handler of [src/app.js] and of
    the helpers it is built from ([eqCi], [getRandomColor], [sendHtml],
    [sendText], [page], [findAnimalByVariant]), followed by the properties
    of the handler.

    Conventions of the embedding.
    - A JavaScript string is a [string]: the bytes of its UTF-8 text.
      [trim] strips the white space and line terminators of ECMAScript;
      [toLowerCase] is a parameter ([Builtins]) known on ASCII text.
    - A JavaScript value is a [value]; a number is kept as the two
      observations the program makes of it, whether it is zero (ToBoolean)
      and its decimal text (ToString).
    - A thrown exception is a [result] carrying a [JsError].
    - The two effects of the handler, [Math.random()] and [fs.readFile], are
      the constructors of the program tree [Prog]; [run] answers them from a
      [World].
    - [JSON.parse] is a parameter of the development. *)

From Stdlib Require Import String Ascii NArith List Lia.
From stdpp Require Import base option list gmap strings.

Set Warnings "-register-all".
#[local] Set Default Proof Using "Type".

#[local] Open Scope string_scope.

(** ** Exceptions *)

(** An [Error] object: its [name] and its [message]. *)
Record JsError : Type := mkError { err_name : string; err_message : string }.

Inductive result (A : Type) : Type :=
  | Ok (a : A)
  | Throw (e : JsError).
Arguments Ok {A} a.
Arguments Throw {A} e.

#[global] Instance result_ret : MRet result := fun A a => Ok a.
#[global] Instance result_bind : MBind result := fun A B f r =>
  match r with
  | Ok a => f a
  | Throw e => Throw e
  end.

Definition TypeError (msg : string) : JsError := mkError "TypeError" msg.

(** ** JavaScript values *)

Inductive value : Type :=
  | VUndefined
  | VNull
  | VBool (b : bool)
  | VNum (is_zero : bool) (text : string)
  | VStr (s : string)
  | VArr (elems : list value)
  | VObj (props : gmap string value).

(** ToBoolean. *)
Definition truthy (v : value) : bool :=
  match v with
  | VUndefined | VNull => false
  | VBool b => b
  | VNum z _ => negb z
  | VStr s => negb (String.eqb s "")
  | VArr _ | VObj _ => true
  end.

(** [String(v)], which is also what a template literal applies to an
    interpolated value.  An array is joined with commas, [undefined] and
    [null] elements giving the empty text.  A plain object gives
    [[object Object]] through [Object.prototype.toString], unless it has an
    own property [toString]: a value read from JSON is never callable, so the
    conversion to a primitive then fails with a [TypeError]. *)
Fixpoint toStr (v : value) : result string :=
  match v with
  | VUndefined => Ok "undefined"
  | VNull => Ok "null"
  | VBool true => Ok "true"
  | VBool false => Ok "false"
  | VNum _ text => Ok text
  | VStr s => Ok s
  | VArr elems =>
      let elem (x : value) : result string :=
        match x with
        | VUndefined | VNull => Ok ""
        | _ => toStr x
        end in
      (fix join (l : list value) : result string :=
         match l with
         | [] => Ok ""
         | [x] => elem x
         | x :: rest => s ← elem x; r ← join rest; mret (s +:+ "," +:+ r)
         end) elems
  | VObj props =>
      match props !! "toString" with
      | Some _ => Throw (TypeError "Cannot convert object to primitive value")
      | None => Ok "[object Object]"
      end
  end.

(** [v.key] for a key that no built-in prototype defines ([variant],
    [animalName], [urlImage]): the own property of an object, [undefined] on
    any other value, and a [TypeError] on [undefined] and [null]. *)
Definition getProp (v : value) (key : string) : result value :=
  match v with
  | VUndefined =>
      Throw (TypeError ("Cannot read properties of undefined (reading '" +:+ key +:+ "')"))
  | VNull =>
      Throw (TypeError ("Cannot read properties of null (reading '" +:+ key +:+ "')"))
  | VObj props => Ok (default VUndefined (props !! key))
  | _ => Ok VUndefined
  end.

(** [v?.key]. *)
Definition optChain (v : value) (key : string) : value :=
  match v with
  | VObj props => default VUndefined (props !! key)
  | _ => VUndefined
  end.

(** [Array.isArray]. *)
Definition isArray (v : value) : bool :=
  match v with
  | VArr _ => true
  | _ => false
  end.

(** [Array.prototype.find] with a callback that may throw: the first element
    on which the callback is true. *)
Fixpoint Array_find {A : Type} (p : A → result bool) (l : list A) : result (option A) :=
  match l with
  | [] => Ok None
  | x :: rest => b ← p x; if b : bool then Ok (Some x) else Array_find p rest
  end.

(** ** Strings *)

Definition dq : string := String "034"%char EmptyString.

(** ASCII case folding: [A]..[Z] to [a]..[z]. *)
Definition foldAsciiChar (c : ascii) : ascii :=
  let n := nat_of_ascii c in
  if (65 <=? n)%nat && (n <=? 90)%nat then ascii_of_nat (n + 32) else c.

Fixpoint foldAscii (s : string) : string :=
  match s with
  | EmptyString => EmptyString
  | String c rest => String (foldAsciiChar c) (foldAscii rest)
  end.

(** A text of the ASCII range: every byte is below 128. *)
Fixpoint isAscii (s : string) : bool :=
  match s with
  | EmptyString => true
  | String c rest => (nat_of_ascii c <? 128)%nat && isAscii rest
  end.

(** [String.prototype.toLowerCase], the Unicode lower-casing of the engine.
    It is a parameter; what is known of it is that on a text of the ASCII
    range it is the ASCII case folding. *)
Class Builtins : Type := {
  toLowerCase : string → string;
  toLowerCase_ascii : ∀ s, isAscii s = true → toLowerCase s = foldAscii s
}.

(** The built-ins of a process that only meets ASCII text. *)
#[global] Instance asciiBuiltins : Builtins :=
  {| toLowerCase := foldAscii; toLowerCase_ascii := λ s _, eq_refl |}.

(** The string of the given bytes. *)
Definition bytes (l : list nat) : string :=
  string_of_list_ascii (ascii_of_nat <$> l).

(** The white space and line terminators that [trim] strips, in UTF-8: the
    code points 9 to 13 and 32, U+00A0, U+1680, U+2000 to U+200A, U+2028,
    U+2029, U+202F, U+205F, U+3000 and U+FEFF. *)
Definition isWhiteSpace1 (c : ascii) : bool :=
  let n := nat_of_ascii c in
  ((9 <=? n)%nat && (n <=? 13)%nat) || (n =? 32)%nat.

Definition isWhiteSpace2 (c1 c2 : ascii) : bool :=
  (nat_of_ascii c1 =? 194)%nat && (nat_of_ascii c2 =? 160)%nat.

Definition isWhiteSpace3 (c1 c2 c3 : ascii) : bool :=
  let n1 := nat_of_ascii c1 in
  let n2 := nat_of_ascii c2 in
  let n3 := nat_of_ascii c3 in
  ((n1 =? 225) && (n2 =? 154) && (n3 =? 128))%nat
  || ((n1 =? 226) && (n2 =? 128)
      && (((128 <=? n3) && (n3 <=? 138)) || (n3 =? 168) || (n3 =? 169) || (n3 =? 175)))%nat
  || ((n1 =? 226) && (n2 =? 129) && (n3 =? 159))%nat
  || ((n1 =? 227) && (n2 =? 128) && (n3 =? 128))%nat
  || ((n1 =? 239) && (n2 =? 187) && (n3 =? 191))%nat.

Definition whiteSpace : list string :=
  (bytes <$> [[9]; [10]; [11]; [12]; [13]; [32]; [194; 160]; [225; 154; 128]])
  ++ ((λ n, bytes [226; 128; n]) <$> seq 128 11)
  ++ (bytes <$> [[226; 128; 168]; [226; 128; 169]; [226; 128; 175]; [226; 129; 159];
                 [227; 128; 128]; [239; 187; 191]]).

(** Strips the white space at the head of [s]; with [back] the bytes of [s]
    are read as those of a reversed text, last byte of a character first. *)
Fixpoint stripLeading (back : bool) (s : string) : string :=
  match s with
  | EmptyString => EmptyString
  | String c1 r1 =>
      if isWhiteSpace1 c1 then stripLeading back r1
      else
        match r1 with
        | EmptyString => s
        | String c2 r2 =>
            if (if back then isWhiteSpace2 c2 c1 else isWhiteSpace2 c1 c2)
            then stripLeading back r2
            else
              match r2 with
              | EmptyString => s
              | String c3 r3 =>
                  if (if back then isWhiteSpace3 c3 c2 c1 else isWhiteSpace3 c1 c2 c3)
                  then stripLeading back r3
                  else s
              end
        end
  end.

Fixpoint reverseOnto (s acc : string) : string :=
  match s with
  | EmptyString => acc
  | String c rest => reverseOnto rest (String c acc)
  end.

Definition reverse (s : string) : string := reverseOnto s EmptyString.

Definition trimStart (s : string) : string := stripLeading false s.

Definition trimEnd (s : string) : string := reverse (stripLeading true (reverse s)).

(** [String.prototype.trim]. *)
Definition trim (s : string) : string := trimEnd (trimStart s).

(** [encodeURIComponent]: the unreserved bytes stay, any other byte becomes
    [%XX]. *)
Definition isUnreserved (c : ascii) : bool :=
  let n := nat_of_ascii c in
  ((65 <=? n)%nat && (n <=? 90)%nat) || ((97 <=? n)%nat && (n <=? 122)%nat)
  || ((48 <=? n)%nat && (n <=? 57)%nat)
  || bool_decide (c ∈ ["-"; "_"; "."; "!"; "~"; "*"; "'"; "("; ")"]%char).

Definition hexDigit (n : nat) : ascii :=
  if (n <? 10)%nat then ascii_of_nat (48 + n) else ascii_of_nat (55 + n).

Fixpoint encodeURIComponent (s : string) : string :=
  match s with
  | EmptyString => EmptyString
  | String c rest =>
      if isUnreserved c then String c (encodeURIComponent rest)
      else
        let n := nat_of_ascii c in
        String "%" (String (hexDigit (n / 16)) (String (hexDigit (n mod 16))
          (encodeURIComponent rest)))
  end.

(** [Array.prototype.join] on strings. *)
Definition join (sep : string) (l : list string) : string := String.concat sep l.

(** ** The colour registry *)

Record Color : Type := mkColor { color_variant : string; color_hex : string }.

Definition colors : list Color :=
  [ mkColor "Vermillion" "#2E191B";
    mkColor "Forest" "#0B6623";
    mkColor "Navy" "#000080";
    mkColor "Crimson" "#DC143C";
    mkColor "Sky Blue" "#87CEEB";
    mkColor "Lime" "#00FF00";
    mkColor "Gold" "#FFD700";
    mkColor "Lavender" "#E6E6FA";
    mkColor "Tangerine" "#F28500";
    mkColor "Magenta" "#FF00FF";
    mkColor "Cyan" "#00FFFF";
    mkColor "Olive" "#808000";
    mkColor "Teal" "#008080";
    mkColor "Maroon" "#800000";
    mkColor "Coral" "#FF7F50" ].

(** Case-insensitive equality: [String(a).toLowerCase() === String(b).toLowerCase()]. *)
Definition eqCi `{!Builtins} (a b : value) : result bool :=
  sa ← toStr a;
  sb ← toStr b;
  mret (String.eqb (toLowerCase sa) (toLowerCase sb)).

(** ** Effects *)

(** A program that may ask for [Math.random()] and for the text of a file.
    [Math.random()] answers the numerator [m] of the double [m / 2^53]: the
    draws of the engines are multiples of [2^-53]. *)
Inductive Prog (A : Type) : Type :=
  | Ret (a : A)
  | MathRandom (k : N → Prog A)
  | ReadFile (path encoding : string) (k : result string → Prog A).
Arguments Ret {A} a.
Arguments MathRandom {A} k.
Arguments ReadFile {A} path encoding k.

Fixpoint bindP {A B : Type} (p : Prog A) (f : A → Prog B) : Prog B :=
  match p with
  | Ret a => f a
  | MathRandom k => MathRandom (λ r, bindP (k r) f)
  | ReadFile path encoding k => ReadFile path encoding (λ r, bindP (k r) f)
  end.

(** An [async] computation: a program whose promise resolves ([Ok]) or
    rejects ([Throw]). *)
Definition Async (A : Type) : Type := Prog (result A).

Definition resolve {A : Type} (a : A) : Async A := Ret (Ok a).

Definition liftR {A : Type} (r : result A) : Async A := Ret r.

Definition awaitA {A B : Type} (p : Async A) (f : A → Async B) : Async B :=
  bindP p (λ r, match r with
                | Ok a => f a
                | Throw e => Ret (Throw e)
                end).

Definition tryCatch {A : Type} (p : Async A) (h : JsError → Async A) : Async A :=
  bindP p (λ r, match r with
                | Ok a => Ret (Ok a)
                | Throw e => h e
                end).

Notation "'do' x := e 'in' k" := (awaitA e (λ x, k))
  (at level 10, x name, e at level 100, k at level 200, only parsing).

(** What the process sees of its environment while it serves one request. *)
Record World : Type := mkWorld {
  Math_random : N;
  fs_readFile : string → result string
}.

(** A double of [[0, 1)]. *)
Definition unit_interval (m : N) : Prop := (m < 2 ^ 53)%N.

Fixpoint run {A : Type} (w : World) (p : Prog A) : A :=
  match p with
  | Ret a => a
  | MathRandom k => run w (k (Math_random w))
  | ReadFile path _ k => run w (k (fs_readFile w path))
  end.

(** The number of questions a program asks of the world. *)
Fixpoint effects {A : Type} (w : World) (p : Prog A) : nat :=
  match p with
  | Ret _ => 0
  | MathRandom k => S (effects w (k (Math_random w)))
  | ReadFile path _ k => S (effects w (k (fs_readFile w path)))
  end.

(** The double nearest to the real [p / 2^53], as its numerator over [2^53]:
    [p] keeps its 53 leading bits, the rest is rounded to nearest, ties to
    even.  This is the rounding of a product of doubles whose exact value is
    [p / 2^53]. *)
Definition roundToDouble (p : N) : N :=
  let k := (N.size p - 53)%N in
  if (k =? 0)%N then p
  else
    let q := (p / 2 ^ k)%N in
    let r := (p mod 2 ^ k)%N in
    let half := (2 ^ (k - 1))%N in
    let q' :=
      if (r <? half)%N then q
      else if (half <? r)%N then (q + 1)%N
      else if N.even q then q else (q + 1)%N in
    (q' * 2 ^ k)%N.

(** Get a random color: [colors[Math.floor(Math.random() * colors.length)]],
    for the draw [random / 2^53]; [None] is [undefined]. *)
Definition getRandomColor (random : N) : option Color :=
  colors !! N.to_nat (roundToDouble (random * N.of_nat (length colors)) / 2 ^ 53).

(** [c.hex], a [TypeError] when [c] is [undefined]. *)
Definition hexOf (c : option Color) : result string :=
  match c with
  | Some c => Ok (color_hex c)
  | None => Throw (TypeError "Cannot read properties of undefined (reading 'hex')")
  end.

(** ** Responses *)

Record Response : Type := mkResponse {
  statusCode : nat;
  contentType : string;
  body : string
}.

(** Send HTML with UTF-8 headers. *)
Definition sendHtml (html : string) (status : nat) : Response :=
  mkResponse status "text/html; charset=utf-8" html.

(** Send plain text with UTF-8 headers. *)
Definition sendText (text : string) (status : nat) : Response :=
  mkResponse status "text/plain; charset=utf-8" text.

(** ** Templates *)

Definition page (title body : string) : string :=
  "<!doctype html>
  <html lang=" +:+ dq +:+ "es" +:+ dq +:+ ">
    <head>
      <meta charset=" +:+ dq +:+ "utf-8" +:+ dq +:+ " />
      <title>" +:+ title +:+ "</title>
      <meta name=" +:+ dq +:+ "viewport" +:+ dq +:+ " content=" +:+ dq +:+ "width=device-width, initial-scale=1" +:+ dq +:+ " />
      <style>
        :root{color-scheme: light dark}
        body{font-family: ui-sans-serif, system-ui, -apple-system, Segoe UI, Roboto, Ubuntu, Cantarell, Noto Sans, Arial; margin:2rem; line-height:1.55;}
        a{color:#0F52BA; text-decoration:none}
        a:hover{text-decoration:underline}
        ul{padding-left:1.2rem}
        code,kbd{background:#0001; padding:.15rem .35rem; border-radius:4px}
        .muted{color:#0008}
        .swatch{display:inline-block; width:1.1rem; height:1.1rem; border-radius:4px; vertical-align:middle; margin-right:.5rem; border:1px solid #0001;}
        img{max-width:100%; height:auto; border-radius:8px; box-shadow:0 2px 10px #0002}
      </style>
    </head>
    <body>" +:+ body +:+ "</body>
  </html>".

Definition welcomeBody  : string :=
  "
          <h1>👋 Bienvenidos al servidor de colores de NetMind</h1>
          <p>Rutas disponibles:</p>
          <ul>
            <li><code>/color</code> — Devuelve el <strong>primer</strong> color del array (texto plano).</li>
            <li><code>/color?variant=Vermillion</code> — Devuelve el color indicado; si no existe, uno <em>aleatorio</em>.</li>
            <li><code>/get-colors</code> — Lista HTML de colores (clicables).</li>
            <li><code>/get-animal?variant=Vermillion</code> — Imagen de un animal relacionado con el color.</li>
          </ul>
        ".

Definition colorFragment (hex : string) : string :=
  "<p style=" +:+ dq +:+ "color:" +:+ hex +:+ dq +:+ ">" +:+ hex +:+ "</p>".

Definition colorItem (c : Color) : string :=
  "<li>
                <a href=" +:+ dq +:+ "/color?variant=" +:+ encodeURIComponent (color_variant c) +:+ dq +:+ ">
                  <span class=" +:+ dq +:+ "swatch" +:+ dq +:+ " style=" +:+ dq +:+ "background:" +:+ color_hex c +:+ dq +:+ "></span>" +:+ color_variant c +:+ "
                  <span class=" +:+ dq +:+ "muted" +:+ dq +:+ ">" +:+ color_hex c +:+ "</span>
                </a>
                &nbsp;— <a class=" +:+ dq +:+ "muted" +:+ dq +:+ " href=" +:+ dq +:+ "/get-animal?variant=" +:+ encodeURIComponent (color_variant c) +:+ dq +:+ ">ver animal</a>
              </li>".

Definition colorsBody (items : string) : string :=
  "
            <h1>Colores disponibles</h1>
            <p>Haz clic en un color para solicitarlo al servidor.</p>
            <ul>" +:+ items +:+ "</ul>
            <p class=" +:+ dq +:+ "muted" +:+ dq +:+ ">También puedes usar <kbd>/color</kbd> o <kbd>/color?variant=Vermillion</kbd>.</p>
            <p><a href=" +:+ dq +:+ "/" +:+ dq +:+ ">Volver</a></p>
            ".

Definition missingParamBody  : string :=
  "
                <h1>Falta el parámetro <code>variant</code></h1>
                <p>Ejemplo: <code>/get-animal?variant=Vermillion</code></p>
                <p><a href=" +:+ dq +:+ "/" +:+ dq +:+ ">Volver</a></p>".

Definition notFoundBody (variant : string) : string :=
  "
                    <h1>Animal no encontrado para <code>" +:+ variant +:+ "</code></h1>
                    <p>Prueba con otra variante desde <a href=" +:+ dq +:+ "/get-colors" +:+ dq +:+ ">la lista de colores</a>.</p>
                    <p><a href=" +:+ dq +:+ "/" +:+ dq +:+ ">Volver</a></p>".

Definition animalTitleText (animalName variant : string) : string :=
  animalName +:+ " (" +:+ variant +:+ ")".

Definition animalBodyText (animalName variant urlImage : string) : string :=
  "
                <h1>" +:+ animalName +:+ " <small class=" +:+ dq +:+ "muted" +:+ dq +:+ ">(" +:+ variant +:+ ")</small></h1>
                <p><img width=" +:+ dq +:+ "300" +:+ dq +:+ " src=" +:+ dq +:+ urlImage +:+ dq +:+ " alt=" +:+ dq +:+ animalName +:+ dq +:+ "></p>
                <p><a href=" +:+ dq +:+ "/" +:+ dq +:+ ">Volver</a></p>".

Definition errorBody (message : string) : string :=
  "<h1>Error cargando <code>files/animals.json</code></h1>
                       <pre class=" +:+ dq +:+ "muted" +:+ dq +:+ ">" +:+ message +:+ "</pre>
                       <p><a href=" +:+ dq +:+ "/" +:+ dq +:+ ">Volver</a></p>".

Definition fallbackBody  : string :=
  "
        <h1>404 - Ruta no encontrada</h1>
        <p><a href=" +:+ dq +:+ "/" +:+ dq +:+ ">Volver</a></p>".

(** ** Requests *)

(** A value of the parsed query string: a string, or the array of the values
    of a key that occurs more than once. *)
Inductive qvalue : Type :=
  | QStr (s : string)
  | QArr (values : list string).

Definition value_of_qvalue (v : qvalue) : value :=
  match v with
  | QStr s => VStr s
  | QArr values => VArr (VStr <$> values)
  end.

(** The result of [url.parse(req.url, true)]: [pathname] is a string or
    [null] ([None]), [query] an object.  Both are always defined, so the
    defaults of the destructuring never apply. *)
Record Url : Type := mkUrl {
  pathname : option string;
  query : gmap string qvalue
}.

Record Request : Type := mkRequest {
  method : string;
  url : Url
}.

(** [query?.variant != null ? String(query.variant).trim() : ''] *)
Definition variantParam (query : gmap string qvalue) : result string :=
  match query !! "variant" with
  | Some v => s ← toStr (value_of_qvalue v); mret (trim s)
  | None => mret ""
  end.

(** [String(err && err.message ? err.message : err)]: the message, or for an
    empty message the text of the error, which is then its name. *)
Definition errorText (err : JsError) : string :=
  if truthy (VStr (err_message err)) then err_message err else err_name err.

(** [files/animals.json] under the directory of the script. *)
Definition jsonPath : string := "files/animals.json".

(** ** The server *)

Section Server.

Context `{!Builtins}.

(** [JSON.parse]: the parsed value, or the [SyntaxError] it throws. *)
Variable JSON_parse : string → result value.

(** The callback of the animal search:
    [a => a?.variant && eqCi(a.variant, variant)]. *)
Definition animalMatches (variant : string) (a : value) : result bool :=
  if truthy (optChain a "variant") then
    v ← getProp a "variant"; eqCi v (VStr variant)
  else Ok false.

(** Load animals.json and find by variant (case-insensitive). *)
Definition findAnimalByVariant (variant : string) : Async value :=
  ReadFile jsonPath "utf-8" (λ file,
    liftR (file ← file;
           animals ← JSON_parse file;
           match animals with
           | VArr elems =>
               found ← Array_find (animalMatches variant) elems;
               mret (default VUndefined found)
           | _ => mret VUndefined
           end)).

(** The page of a found animal.  Title and body interpolate
    [animal.animalName], [animal.variant] and [animal.urlImage]; the
    conversion of a value to text is a function of the value, so each is
    converted once, in the order of its first use. *)
Definition animalPage (animal : value) : result string :=
  animalName ← getProp animal "animalName" ≫= toStr;
  variant ← getProp animal "variant" ≫= toStr;
  urlImage ← getProp animal "urlImage" ≫= toStr;
  mret (page (animalTitleText animalName variant)
             (animalBodyText animalName variant urlImage)).

(** The route [/color]. *)
Definition colorRoute (query : gmap string qvalue) : Async Response :=
  do variant := liftR (variantParam query) in
  if truthy (VStr variant) then
    do found := liftR (Array_find
                  (λ color, eqCi (VStr (color_variant color)) (VStr variant)) colors) in
    match found with
    | Some chosen => resolve (sendHtml (colorFragment (color_hex chosen)) 200)
    | None =>
        MathRandom (λ r,
          liftR (hex ← hexOf (getRandomColor r);
                 mret (sendHtml (colorFragment hex) 200)))
    end
  else
    MathRandom (λ r,
      liftR (hex ← hexOf (getRandomColor r);
             mret (sendHtml (colorFragment hex) 200))).

(** The route [/get-colors]. *)
Definition getColorsRoute : Async Response :=
  let items := join "
" (colorItem <$> colors) in
  resolve (sendHtml (page "Colores disponibles" (colorsBody items)) 200).

(** The route [/get-animal]. *)
Definition getAnimalRoute (query : gmap string qvalue) : Async Response :=
  do variant := liftR (variantParam query) in
  if negb (truthy (VStr variant)) then
    resolve (sendHtml (page "Falta parámetro" missingParamBody) 400)
  else
    tryCatch
      (do animal := findAnimalByVariant variant in
       if negb (truthy animal) then
         resolve (sendHtml (page "No encontrado" (notFoundBody variant)) 404)
       else
         do html := liftR (animalPage animal) in
         resolve (sendHtml html 200))
      (λ err,
         resolve (sendHtml (page "Error del servidor" (errorBody (errorText err))) 500)).

(** The request listener of [http.createServer], for a request whose URL
    [url.parse] has parsed; [requestListener] below adds the case where it
    throws. *)
Definition handler (req : Request) : Async Response :=
  if negb (String.eqb (method req) "GET") then
    resolve (sendText "Method Not Allowed" 405)
  else
    let pathname := pathname (url req) in
    let query := query (url req) in
    if bool_decide (pathname = Some "/") then
      resolve (sendHtml (page "Bienvenidos" welcomeBody) 200)
    else if bool_decide (pathname = Some "/color") then colorRoute query
    else if bool_decide (pathname = Some "/get-colors") then getColorsRoute
    else if bool_decide (pathname = Some "/get-animal") then getAnimalRoute query
    else resolve (sendHtml (page "404" fallbackBody) 404).

End Server.

(** The request listener with the outcome of [url.parse(req.url, true)].
    The call comes after the method check and outside every [try]: when it
    throws, the promise of the listener rejects and nothing is sent. *)
Definition requestListener `{!Builtins} (JSON_parse : string → result value)
    (method : string) (parsed : result Url) : Async Response :=
  if negb (String.eqb method "GET") then
    resolve (sendText "Method Not Allowed" 405)
  else
    match parsed with
    | Ok parsedUrl => handler JSON_parse (mkRequest method parsedUrl)
    | Throw err => Ret (Throw err)
    end.

(** ** Vocabulary of the properties *)

(** The value of a result, if any. *)
Definition result_option {A : Type} (r : result A) : option A :=
  match r with
  | Ok a => Some a
  | Throw _ => None
  end.

(** The text of a query value: [String(v)]. *)
Definition queryText (v : qvalue) : string :=
  match v with
  | QStr s => s
  | QArr values => join "," values
  end.

(** [s] is made of white space only: a concatenation of characters of
    [whiteSpace]. *)
Definition allWhiteSpace (s : string) : Prop :=
  ∃ ws, Forall (λ w, w ∈ whiteSpace) ws ∧ s = String.concat "" ws.

(** [sub] occurs in [s]. *)
Definition contains (s sub : string) : Prop :=
  ∃ before after, s = before +:+ sub +:+ after.

(** The answers of [/get-animal] once the variant is known. *)
Definition missingParam : Response :=
  sendHtml (page "Falta parámetro" missingParamBody) 400.

Definition notFound (variant : string) : Response :=
  sendHtml (page "No encontrado" (notFoundBody variant)) 404.

Definition serverError (err : JsError) : Response :=
  sendHtml (page "Error del servidor" (errorBody (errorText err))) 500.

Definition withoutVariant (req : Request) : Request :=
  mkRequest (method req)
    (mkUrl (pathname (url req)) (delete "variant" (query (url req)))).

Definition withVariant (v : qvalue) (req : Request) : Request :=
  mkRequest (method req)
    (mkUrl (pathname (url req)) (<[ "variant" := v ]> (query (url req)))).

(** The program of a random answer. *)
Definition randomAnswer : Async Response :=
  MathRandom (λ r,
    liftR (hex ← hexOf (getRandomColor r); mret (sendHtml (colorFragment hex) 200))).

(** The text of a property of a record as a template interpolates it. *)
Definition fieldText (props : gmap string value) (key : string) : result string :=
  toStr (default VUndefined (props !! key)).

(** The files a program reads, in the order of the reads. *)
Fixpoint filesRead {A : Type} (w : World) (p : Prog A) : list string :=
  match p with
  | Ret _ => []
  | MathRandom k => filesRead w (k (Math_random w))
  | ReadFile path _ k => path :: filesRead w (k (fs_readFile w path))
  end.

(** The number of calls of [Math.random()]. *)
Fixpoint draws {A : Type} (w : World) (p : Prog A) : nat :=
  match p with
  | Ret _ => 0
  | MathRandom k => S (draws w (k (Math_random w)))
  | ReadFile path _ k => draws w (k (fs_readFile w path))
  end.

(** The paths that have a route of their own. *)
Definition routes : list string := ["/"; "/color"; "/get-colors"; "/get-animal"].

(** The status codes the server sends. *)
Definition statusCodes : list nat := [200; 400; 404; 405; 500].

(** The six ways of a request through the handler. *)
Inductive Dispatch `{!Builtins} (JSON_parse : string → result value) (req : Request) : Prop :=
  | ByMethod :
      method req ≠ "GET" →
      handler JSON_parse req = resolve (sendText "Method Not Allowed" 405) →
      Dispatch JSON_parse req
  | ToRoot :
      method req = "GET" → pathname (url req) = Some "/" →
      handler JSON_parse req = resolve (sendHtml (page "Bienvenidos" welcomeBody) 200) →
      Dispatch JSON_parse req
  | ToColor :
      method req = "GET" → pathname (url req) = Some "/color" →
      handler JSON_parse req = colorRoute (query (url req)) →
      Dispatch JSON_parse req
  | ToGetColors :
      method req = "GET" → pathname (url req) = Some "/get-colors" →
      handler JSON_parse req = getColorsRoute →
      Dispatch JSON_parse req
  | ToGetAnimal :
      method req = "GET" → pathname (url req) = Some "/get-animal" →
      handler JSON_parse req = getAnimalRoute JSON_parse (query (url req)) →
      Dispatch JSON_parse req
  | ToFallback :
      method req = "GET" → (∀ path, path ∈ routes → pathname (url req) ≠ Some path) →
      handler JSON_parse req = resolve (sendHtml (page "404" fallbackBody) 404) →
      Dispatch JSON_parse req.

(** ** Sample data *)

(** The text [[{ variant: Navy }]] of an animals file whose only record has
    no [animalName] and no [urlImage]. *)
Definition navyOnlyText : string :=
  "[{" +:+ dq +:+ "variant" +:+ dq +:+ ":" +:+ dq +:+ "Navy" +:+ dq +:+ "}]".

Definition navyOnly : value := VArr [VObj {[ "variant" := VStr "Navy" ]}].

(** An animals file with two records for Navy, in two spellings. *)
Definition twoNavyText : string :=
  "[{" +:+ dq +:+ "variant" +:+ dq +:+ ":" +:+ dq +:+ "Forest" +:+ dq +:+ ","
       +:+ dq +:+ "animalName" +:+ dq +:+ ":" +:+ dq +:+ "Frog" +:+ dq +:+ ","
       +:+ dq +:+ "urlImage" +:+ dq +:+ ":" +:+ dq +:+ "/img/frog.png" +:+ dq +:+ "},"
  +:+ "{" +:+ dq +:+ "variant" +:+ dq +:+ ":" +:+ dq +:+ "NAVY" +:+ dq +:+ ","
       +:+ dq +:+ "animalName" +:+ dq +:+ ":" +:+ dq +:+ "Whale" +:+ dq +:+ ","
       +:+ dq +:+ "urlImage" +:+ dq +:+ ":" +:+ dq +:+ "/img/whale.png" +:+ dq +:+ "},"
  +:+ "{" +:+ dq +:+ "variant" +:+ dq +:+ ":" +:+ dq +:+ "navy" +:+ dq +:+ ","
       +:+ dq +:+ "animalName" +:+ dq +:+ ":" +:+ dq +:+ "Shark" +:+ dq +:+ ","
       +:+ dq +:+ "urlImage" +:+ dq +:+ ":" +:+ dq +:+ "/img/shark.png" +:+ dq +:+ "}]".

Definition animalRecord (variant animalName urlImage : string) : value :=
  VObj {[ "variant" := VStr variant;
          "animalName" := VStr animalName;
          "urlImage" := VStr urlImage ]}.

Definition frog : value := animalRecord "Forest" "Frog" "/img/frog.png".
Definition whale : value := animalRecord "NAVY" "Whale" "/img/whale.png".
Definition shark : value := animalRecord "navy" "Shark" "/img/shark.png".

Definition twoNavy : value := VArr [frog; whale; shark].

(** [JSON.parse] on the sample texts. *)
Definition sampleParse (text : string) : result value :=
  if String.eqb text "[]" then Ok (VArr [])
  else if String.eqb text "{}" then Ok (VObj ∅)
  else if String.eqb text navyOnlyText then Ok navyOnly
  else if String.eqb text twoNavyText then Ok twoNavy
  else Throw (mkError "SyntaxError" "Unexpected token in JSON").

(** A world whose animals file holds [text]. *)
Definition worldWith (random : N) (text : string) : World :=
  mkWorld random (λ path,
    if String.eqb path jsonPath then Ok text
    else Throw (mkError "Error" "ENOENT: no such file or directory")).

Definition getRequest (path : string) (q : gmap string qvalue) : Request :=
  mkRequest "GET" (mkUrl (Some path) q).

(** A no-break space (U+00A0) followed by a space. *)
Definition nbspSpace : string := bytes [194; 160; 32].

(** An animals file whose record for Navy has an object for a name, with a
    key [toString]. *)
Definition oddNameText : string :=
  "[{" +:+ dq +:+ "variant" +:+ dq +:+ ":" +:+ dq +:+ "Navy" +:+ dq +:+ ","
       +:+ dq +:+ "animalName" +:+ dq +:+ ":{" +:+ dq +:+ "toString" +:+ dq +:+ ":1}}]".

Definition oddNameProps : gmap string value :=
  {[ "variant" := VStr "Navy";
     "animalName" := VObj {[ "toString" := VNum false "1" ]} ]}.

Definition oddName : value := VArr [VObj oddNameProps].

(** [JSON.parse] on the sample texts, [oddNameText] included. *)
Definition sampleParseOdd (text : string) : result value :=
  if String.eqb text oddNameText then Ok oddName else sampleParse text.

(** ** Properties of the built-ins *)

Arguments result_bind {A B} f !r /.
Arguments result_ret {A} a /.

Example trim_inner_space : trim "  Sky Blue  " = "Sky Blue".
Proof. reflexivity. Qed.

Example trim_unicode_space :
  trim (bytes [194; 160] +:+ " Navy" +:+ bytes [226; 128; 131; 239; 187; 191; 10]) = "Navy".
Proof. reflexivity. Qed.

Example trim_keeps_letters :
  trim (bytes [195; 160; 32; 226; 130; 172]) = bytes [195; 160; 32; 226; 130; 172].
Proof. reflexivity. Qed.

Example roundToDouble_up : (roundToDouble (2 ^ 56 - 1) = 2 ^ 56)%N.
Proof. reflexivity. Qed.

Example foldAscii_mixed : foldAscii "nAvY 9" = "navy 9".
Proof. reflexivity. Qed.

Example encodeURIComponent_space : encodeURIComponent "Sky Blue" = "Sky%20Blue".
Proof. reflexivity. Qed.

Example toStr_nested :
  toStr (VArr [VStr "a"; VNull; VArr [VNum false "1"; VBool true]; VObj ∅])
    = Ok "a,,1,true,[object Object]".
Proof. reflexivity. Qed.

Example eqCi_number : eqCi (VNum false "7") (VStr "7") = Ok true.
Proof. reflexivity. Qed.

Example getRandomColor_last : getRandomColor (2 ^ 53 - 1) = Some (mkColor "Coral" "#FF7F50").
Proof. reflexivity. Qed.

Lemma truthy_VStr (s : string) : truthy (VStr s) = true ↔ s ≠ "".
Proof.
  simpl. destruct (String.eqb_spec s ""); simpl; split; congruence.
Qed.

Lemma truthy_VStr_false (s : string) : truthy (VStr s) = false ↔ s = "".
Proof.
  simpl. destruct (String.eqb_spec s ""); simpl; split; congruence.
Qed.

Lemma toStr_strings (values : list string) :
  toStr (VArr (VStr <$> values)) = Ok (join "," values).
Proof.
  induction values as [|x [|y rest] IH]; [done..|].
  change (toStr (VArr (VStr <$> x :: y :: rest)))
    with (s ← Ok x; r ← toStr (VArr (VStr <$> y :: rest)); mret (s +:+ "," +:+ r)).
  rewrite IH. reflexivity.
Qed.

Lemma toStr_qvalue (v : qvalue) : toStr (value_of_qvalue v) = Ok (queryText v).
Proof. destruct v; [done | apply toStr_strings]. Qed.

Lemma variantParam_Some (q : gmap string qvalue) (v : qvalue) :
  q !! "variant" = Some v → variantParam q = Ok (trim (queryText v)).
Proof. intros H. unfold variantParam. rewrite H, toStr_qvalue. done. Qed.

Lemma variantParam_None (q : gmap string qvalue) :
  q !! "variant" = None → variantParam q = Ok "".
Proof. intros H. unfold variantParam. by rewrite H. Qed.

Lemma variantParam_total (q : gmap string qvalue) : ∃ variant, variantParam q = Ok variant.
Proof.
  destruct (q !! "variant") as [v|] eqn:H.
  - eexists. by apply variantParam_Some.
  - eexists. by apply variantParam_None.
Qed.

Lemma stripLeading_whiteSpace (w s : string) :
  w ∈ whiteSpace → stripLeading false (w +:+ s) = stripLeading false s.
Proof.
  unfold whiteSpace. rewrite !elem_of_app. cbn [fmap list_fmap seq].
  rewrite !elem_of_cons, !elem_of_nil. intros H.
  repeat (destruct H as [H|H]); try done; by subst w.
Qed.

Lemma stripLeading_whiteSpace_only (w : string) :
  w ∈ whiteSpace → stripLeading false w = "".
Proof.
  unfold whiteSpace. rewrite !elem_of_app. cbn [fmap list_fmap seq].
  rewrite !elem_of_cons, !elem_of_nil. intros H.
  repeat (destruct H as [H|H]); try done; by subst w.
Qed.

Lemma trimStart_blank (s : string) : allWhiteSpace s → trimStart s = "".
Proof.
  intros (ws & Hws & ->). unfold trimStart.
  induction Hws as [|w ws Hw _ IH]; [done|].
  destruct ws as [|w' ws].
  - cbn [String.concat]. by apply stripLeading_whiteSpace_only.
  - change (String.concat "" (w :: w' :: ws)) with (w +:+ "" +:+ String.concat "" (w' :: ws)).
    rewrite stripLeading_whiteSpace by done. exact IH.
Qed.

Lemma trim_blank (s : string) : allWhiteSpace s → trim s = "".
Proof. intros H. unfold trim. by rewrite trimStart_blank. Qed.

Lemma eqCi_strings `{!Builtins} (a b : string) :
  eqCi (VStr a) (VStr b) = Ok (String.eqb (toLowerCase a) (toLowerCase b)).
Proof. reflexivity. Qed.

Lemma Array_find_Some {A : Type} (p : A → result bool) (l : list A) (x : A) :
  Array_find p l = Ok (Some x) → x ∈ l ∧ p x = Ok true.
Proof.
  induction l as [|y l IH]; simpl; [done|].
  destruct (p y) as [[|]|e] eqn:Hy; simpl.
  - intros [= <-]. split; [left|done].
  - intros [Hin Hx]%IH. split; [by right|done].
  - done.
Qed.

Lemma Array_find_None {A : Type} (p : A → result bool) (l : list A) :
  Forall (λ x, p x = Ok false) l → Array_find p l = Ok None.
Proof. induction 1 as [|x l Hx _ IH]; simpl; [done|]. by rewrite Hx. Qed.

Lemma Array_find_first {A : Type} (p : A → result bool) (before after : list A) (x : A) :
  Forall (λ y, p y = Ok false) before → p x = Ok true →
  Array_find p (before ++ x :: after) = Ok (Some x).
Proof.
  induction 1 as [|y l Hy _ IH]; simpl; intros Hx.
  - by rewrite Hx.
  - rewrite Hy. simpl. auto.
Qed.

Lemma Array_find_total {A : Type} (p : A → result bool) (l : list A) :
  (∀ x, ∃ b, p x = Ok b) → ∃ r, Array_find p l = Ok r.
Proof.
  intros Hp. induction l as [|y l IH]; simpl; [by eexists|].
  destruct IH as [r IH]. destruct (Hp y) as [[|] ->]; simpl; eauto.
Qed.

Lemma roundToDouble_le (p : N) : (p < 2 ^ 57 → roundToDouble p ≤ p + 8)%N.
Proof.
  intros Hp. unfold roundToDouble.
  assert (N.size p ≤ 57)%N as Hsize.
  { destruct (N.eq_dec p 0%N) as [->|Hne]; [done|].
    rewrite N.size_log2 by done. apply N.le_succ_l, N.log2_lt_pow2; lia. }
  assert (N.size p - 53 = 0 ∨ N.size p - 53 = 1 ∨ N.size p - 53 = 2
          ∨ N.size p - 53 = 3 ∨ N.size p - 53 = 4)%N as Hk by lia.
  destruct Hk as [->|[->|[->|[->| ->]]]]; cbn [N.eqb Pos.eqb]; [lia|..].
  all: cbv zeta; change (2 ^ (1 - 1))%N with 1%N; change (2 ^ (2 - 1))%N with 2%N;
       change (2 ^ (3 - 1))%N with 4%N; change (2 ^ (4 - 1))%N with 8%N;
       change (2 ^ 1)%N with 2%N; change (2 ^ 2)%N with 4%N;
       change (2 ^ 3)%N with 8%N; change (2 ^ 4)%N with 16%N.
  all: match goal with |- context [(?x / ?d)%N] =>
         pose proof (N.div_mod x d ltac:(done)) as Hdm;
         pose proof (N.mod_lt x d ltac:(done)) as Hlt end.
  all: repeat match goal with |- context [if ?b then _ else _] => destruct b eqn:? end.
  all: rewrite ?N.ltb_lt, ?N.ltb_ge in *; try lia.
  all: rewrite N.mul_comm; etransitivity; [apply N.Div0.mul_div_le|lia].
Qed.

Lemma getRandomColor_Some (m : N) :
  unit_interval m → ∃ c, getRandomColor m = Some c ∧ c ∈ colors.
Proof.
  unfold unit_interval, getRandomColor. intros Hm.
  destruct (lookup_lt_is_Some_2 colors
    (N.to_nat (roundToDouble (m * N.of_nat (length colors)) / 2 ^ 53))) as [c Hc].
  - change (length colors) with 15%nat.
    pose proof (roundToDouble_le (m * N.of_nat 15) ltac:(lia)) as Hle.
    assert (roundToDouble (m * N.of_nat 15) / 2 ^ 53 < 15)%N; [|lia].
    apply N.Div0.div_lt_upper_bound. lia.
  - exists c. split; [done|]. by eapply list_elem_of_lookup_2.
Qed.

Lemma run_bindP {A B : Type} (w : World) (p : Prog A) (f : A → Prog B) :
  run w (bindP p f) = run w (f (run w p)).
Proof. induction p; simpl; auto. Qed.

Lemma append_assoc (a b c : string) : (a +:+ b) +:+ c = a +:+ (b +:+ c).
Proof.
  induction a as [|x a IH]; [done|].
  change (String x ((a +:+ b) +:+ c) = String x (a +:+ (b +:+ c))).
  by rewrite IH.
Qed.

Lemma contains_here (sub after : string) : contains (sub +:+ after) sub.
Proof. by exists "", after. Qed.

Lemma contains_app_r (a s sub : string) : contains s sub → contains (a +:+ s) sub.
Proof.
  intros (before & after & ->). exists (a +:+ before), after.
  by rewrite append_assoc.
Qed.

Lemma contains_app_l (s b sub : string) : contains s sub → contains (s +:+ b) sub.
Proof.
  intros (before & after & ->). exists before, (after +:+ b).
  by rewrite !append_assoc.
Qed.

Ltac find_occurrence :=
  lazymatch goal with
  | |- contains (?sub +:+ _) ?sub => apply contains_here
  | |- contains (?a +:+ _) _ =>
      first [ apply contains_app_l; find_occurrence
            | apply contains_app_r; find_occurrence ]
  end.

(** ** Properties of the lookup and of the routes *)

Lemma awaitA_Ok {A B : Type} (a : A) (f : A → Async B) : awaitA (liftR (Ok a)) f = f a.
Proof. reflexivity. Qed.

Section Routes.

Context `{!Builtins}.

Variable JSON_parse : string → result value.

Lemma run_findAnimalByVariant (w : World) (variant : string) :
  run w (findAnimalByVariant JSON_parse variant) =
    (file ← fs_readFile w jsonPath;
     animals ← JSON_parse file;
     match animals with
     | VArr elems =>
         found ← Array_find (animalMatches variant) elems;
         mret (default VUndefined found)
     | _ => mret VUndefined
     end).
Proof. reflexivity. Qed.

Lemma run_getAnimalRoute (w : World) (q : gmap string qvalue) (variant : string) :
  variantParam q = Ok variant → variant ≠ "" →
  run w (getAnimalRoute JSON_parse q) =
    match run w (findAnimalByVariant JSON_parse variant) with
    | Throw err => Ok (serverError err)
    | Ok animal =>
        if truthy animal then
          match animalPage animal with
          | Ok html => Ok (sendHtml html 200)
          | Throw err => Ok (serverError err)
          end
        else Ok (notFound variant)
    end.
Proof.
  intros Hq Hne. unfold getAnimalRoute. rewrite Hq, awaitA_Ok.
  apply truthy_VStr in Hne. rewrite Hne. cbn [negb].
  unfold tryCatch, awaitA. rewrite !run_bindP.
  destruct (run w (findAnimalByVariant JSON_parse variant)) as [animal|err]; [|done].
  destruct (truthy animal); cbn [negb]; [|done].
  unfold liftR. cbn [bindP run]. by destruct (animalPage animal).
Qed.

Lemma getAnimalRoute_blank (q : gmap string qvalue) :
  variantParam q = Ok "" → getAnimalRoute JSON_parse q = resolve missingParam.
Proof. intros Hq. unfold getAnimalRoute. by rewrite Hq. Qed.

Lemma handler_color (req : Request) :
  method req = "GET" → pathname (url req) = Some "/color" →
  handler JSON_parse req = colorRoute (query (url req)).
Proof. intros Hm Hp. unfold handler. rewrite Hm, Hp. reflexivity. Qed.

Lemma handler_get_animal (req : Request) :
  method req = "GET" → pathname (url req) = Some "/get-animal" →
  handler JSON_parse req = getAnimalRoute JSON_parse (query (url req)).
Proof. intros Hm Hp. unfold handler. rewrite Hm, Hp. reflexivity. Qed.

End Routes.

(** ** The method check *)

(** C4: a request whose method is not GET is answered 405 with the plain
    text [Method Not Allowed], whatever its path and query; the handler is
    then a bare return, so no route runs and the world is never asked. *)
Theorem non_get_is_405 `{!Builtins} (JSON_parse : string → result value) (req : Request) :
  method req ≠ "GET" →
  handler JSON_parse req
    = Ret (Ok (mkResponse 405 "text/plain; charset=utf-8" "Method Not Allowed"))
  ∧ ∀ w, effects w (handler JSON_parse req) = 0.
Proof.
  intros Hm%String.eqb_neq. unfold handler. rewrite Hm. by split.
Qed.

Lemma non_get_is_405_witness :
  handler sampleParse (mkRequest "POST" (mkUrl (Some "/get-animal") {[ "variant" := QStr "Navy" ]}))
    = Ret (Ok (mkResponse 405 "text/plain; charset=utf-8" "Method Not Allowed"))
  ∧ ∀ w, effects w (handler sampleParse
        (mkRequest "POST" (mkUrl (Some "/get-animal") {[ "variant" := QStr "Navy" ]}))) = 0.
Proof. apply non_get_is_405. simpl. discriminate. Defined.

(** ** The route /color *)

Lemma eqCi_strings_total `{!Builtins} (a : string) (c : Color) :
  ∃ b, eqCi (VStr (color_variant c)) (VStr a) = Ok b.
Proof. eexists. apply eqCi_strings. Qed.

Lemma run_random_color (w : World) :
  unit_interval (Math_random w) →
  ∃ c, c ∈ colors ∧ getRandomColor (Math_random w) = Some c ∧
    run w (MathRandom (λ r,
      liftR (hex ← hexOf (getRandomColor r); mret (sendHtml (colorFragment hex) 200))))
    = Ok (sendHtml (colorFragment (color_hex c)) 200).
Proof.
  intros (c & Hc & Hin)%getRandomColor_Some. exists c. split; [done|]. split; [done|].
  cbn [run liftR]. by rewrite Hc.
Qed.

(** C2: a GET request to [/color] is always answered 200 with the fragment
    [<p style=..color:HEX..>HEX</p>] for the hex code of an entry of the
    registry, whatever the query holds; it never fails. *)
Theorem color_always_ok `{!Builtins} (JSON_parse : string → result value) (req : Request) (w : World) :
  method req = "GET" → pathname (url req) = Some "/color" →
  unit_interval (Math_random w) →
  ∃ c, c ∈ colors ∧
    run w (handler JSON_parse req)
      = Ok (mkResponse 200 "text/html; charset=utf-8"
              ("<p style=" +:+ dq +:+ "color:" +:+ color_hex c +:+ dq +:+ ">"
                 +:+ color_hex c +:+ "</p>")).
Proof.
  intros Hm Hp Hr. rewrite handler_color by done. unfold colorRoute.
  destruct (variantParam_total (query (url req))) as [variant ->]. rewrite awaitA_Ok.
  destruct (truthy (VStr variant)).
  - destruct (Array_find_total
      (λ color, eqCi (VStr (color_variant color)) (VStr variant)) colors) as [found Hf].
    { intros c. apply eqCi_strings_total. }
    rewrite Hf, awaitA_Ok. destruct found as [chosen|].
    + exists chosen. split; [|done]. by apply Array_find_Some in Hf as [??].
    + destruct (run_random_color w Hr) as (c & Hin & _ & ->). by exists c.
  - destruct (run_random_color w Hr) as (c & Hin & _ & ->). by exists c.
Qed.

Lemma color_always_ok_witness :
  ∃ c, c ∈ colors ∧
    run (worldWith 5000000000000000 "[]")
        (handler sampleParse (getRequest "/color" {[ "variant" := QStr "DoesNotExist" ]}))
      = Ok (mkResponse 200 "text/html; charset=utf-8"
              ("<p style=" +:+ dq +:+ "color:" +:+ color_hex c +:+ dq +:+ ">"
                 +:+ color_hex c +:+ "</p>")).
Proof.
  apply color_always_ok; [reflexivity | reflexivity | unfold unit_interval; simpl; lia].
Defined.

(** C3: when the variant of the query, as the handler normalises it, equals
    [Navy] under [eqCi], the answer to GET [/color] is the fixed fragment for
    [#000080]; the handler is a bare return, no random draw is made. *)
Theorem color_navy `{!Builtins} (JSON_parse : string → result value) (req : Request) (variant : string) :
  method req = "GET" → pathname (url req) = Some "/color" →
  variantParam (query (url req)) = Ok variant →
  eqCi (VStr "Navy") (VStr variant) = Ok true →
  handler JSON_parse req
    = Ret (Ok (mkResponse 200 "text/html; charset=utf-8"
                 ("<p style=" +:+ dq +:+ "color:#000080" +:+ dq +:+ ">#000080</p>"))).
Proof.
  intros Hm Hp Hv Heq. rewrite handler_color by done. unfold colorRoute.
  rewrite Hv, awaitA_Ok.
  assert (toLowerCase "Navy" = toLowerCase variant) as Hlow.
  { apply String.eqb_eq. rewrite eqCi_strings in Heq. congruence. }
  clear Heq. rewrite (toLowerCase_ascii "Navy") in Hlow by reflexivity.
  assert (truthy (VStr variant) = true) as ->.
  { apply truthy_VStr. intros ->.
    rewrite (toLowerCase_ascii "") in Hlow by reflexivity. discriminate Hlow. }
  unfold colors. cbn [Array_find color_variant]. rewrite !eqCi_strings, <- Hlow.
  rewrite !toLowerCase_ascii by reflexivity. reflexivity.
Qed.

Lemma color_navy_witness :
  handler sampleParse (getRequest "/color" {[ "variant" := QStr "nAvY" ]})
    = Ret (Ok (mkResponse 200 "text/html; charset=utf-8"
                 ("<p style=" +:+ dq +:+ "color:#000080" +:+ dq +:+ ">#000080</p>"))).
Proof. apply (color_navy sampleParse _ "nAvY"); reflexivity. Defined.

(** ** The animal lookup *)

Lemma lookup_non_array `{!Builtins} (JSON_parse : string → result value) (w : World)
    (file : string) (animals : value) (variant : string) :
  fs_readFile w jsonPath = Ok file → JSON_parse file = Ok animals →
  isArray animals = false →
  run w (findAnimalByVariant JSON_parse variant) = Ok VUndefined.
Proof.
  intros Hf Hp Ha. rewrite run_findAnimalByVariant, Hf. cbn [mbind result_bind].
  rewrite Hp. cbn [mbind result_bind]. by destruct animals.
Qed.

Lemma lookup_no_match `{!Builtins} (JSON_parse : string → result value) (w : World)
    (file : string) (elems : list value) (variant : string) :
  fs_readFile w jsonPath = Ok file → JSON_parse file = Ok (VArr elems) →
  Forall (λ a, animalMatches variant a = Ok false) elems →
  run w (findAnimalByVariant JSON_parse variant) = Ok VUndefined.
Proof.
  intros Hf Hp Ha. rewrite run_findAnimalByVariant, Hf. cbn [mbind result_bind].
  rewrite Hp. cbn [mbind result_bind]. by rewrite Array_find_None.
Qed.

Lemma lookup_first `{!Builtins} (JSON_parse : string → result value) (w : World)
    (file : string) (before after : list value) (a : value) (variant : string) :
  fs_readFile w jsonPath = Ok file →
  JSON_parse file = Ok (VArr (before ++ a :: after)) →
  Forall (λ x, animalMatches variant x = Ok false) before →
  animalMatches variant a = Ok true →
  run w (findAnimalByVariant JSON_parse variant) = Ok a.
Proof.
  intros Hf Hp Hb Ha. rewrite run_findAnimalByVariant, Hf. cbn [mbind result_bind].
  rewrite Hp. cbn [mbind result_bind]. by rewrite Array_find_first.
Qed.

(** C5: when the animals file parses to a value that is not an array, the
    lookup returns [undefined] instead of throwing, and a GET request to
    [/get-animal] that reaches the lookup is answered 404. *)
Theorem non_array_is_not_found `{!Builtins} (JSON_parse : string → result value) (w : World)
    (file : string) (animals : value) (variant : string) :
  fs_readFile w jsonPath = Ok file → JSON_parse file = Ok animals →
  isArray animals = false →
  run w (findAnimalByVariant JSON_parse variant) = Ok VUndefined
  ∧ ∀ req, method req = "GET" → pathname (url req) = Some "/get-animal" →
      variantParam (query (url req)) = Ok variant → variant ≠ "" →
      run w (handler JSON_parse req)
        = Ok (mkResponse 404 "text/html; charset=utf-8"
                (page "No encontrado" (notFoundBody variant))).
Proof.
  intros Hf Hp Ha.
  pose proof (lookup_non_array JSON_parse w file animals variant Hf Hp Ha) as Hrun.
  split; [done|]. intros req Hm Hpath Hv Hne.
  rewrite handler_get_animal by done.
  by rewrite (run_getAnimalRoute _ _ _ variant), Hrun.
Qed.

Lemma non_array_is_not_found_witness :
  run (worldWith 0 "{}") (findAnimalByVariant sampleParse "Navy") = Ok VUndefined
  ∧ ∀ req, method req = "GET" → pathname (url req) = Some "/get-animal" →
      variantParam (query (url req)) = Ok "Navy" → "Navy" ≠ "" →
      run (worldWith 0 "{}") (handler sampleParse req)
        = Ok (mkResponse 404 "text/html; charset=utf-8"
                (page "No encontrado" (notFoundBody "Navy"))).
Proof. apply (non_array_is_not_found sampleParse _ "{}" (VObj ∅)); reflexivity. Defined.



(** ** Determinism of /get-animal *)

Lemma variantParam_ext (q1 q2 : gmap string qvalue) :
  q1 !! "variant" = q2 !! "variant" → variantParam q1 = variantParam q2.
Proof. intros H. unfold variantParam. by rewrite H. Qed.

Lemma run_getAnimalRoute_ext `{!Builtins} (JSON_parse : string → result value)
    (w1 w2 : World) (q1 q2 : gmap string qvalue) :
  q1 !! "variant" = q2 !! "variant" →
  fs_readFile w1 jsonPath = fs_readFile w2 jsonPath →
  run w1 (getAnimalRoute JSON_parse q1) = run w2 (getAnimalRoute JSON_parse q2).
Proof.
  intros Hq%variantParam_ext Hf.
  destruct (variantParam_total q2) as [variant Hv]. rewrite Hv in Hq.
  destruct (decide (variant = "")) as [->|Hne].
  - by rewrite !getAnimalRoute_blank.
  - rewrite !(run_getAnimalRoute _ _ _ variant), !run_findAnimalByVariant by done.
    by rewrite Hf.
Qed.

(** C8: two GET requests to [/get-animal] that carry the same variant, served
    against the same contents of the animals file, get the same response,
    body included, whatever else differs between the two requests and the
    two worlds (other query keys, the random draw). *)
Theorem get_animal_deterministic `{!Builtins} (JSON_parse : string → result value)
    (req1 req2 : Request) (w1 w2 : World) :
  method req1 = "GET" → method req2 = "GET" →
  pathname (url req1) = Some "/get-animal" → pathname (url req2) = Some "/get-animal" →
  query (url req1) !! "variant" = query (url req2) !! "variant" →
  fs_readFile w1 jsonPath = fs_readFile w2 jsonPath →
  run w1 (handler JSON_parse req1) = run w2 (handler JSON_parse req2)
  ∧ body <$> result_option (run w1 (handler JSON_parse req1))
      = body <$> result_option (run w2 (handler JSON_parse req2)).
Proof.
  intros Hm1 Hm2 Hp1 Hp2 Hq Hf. rewrite !handler_get_animal by done.
  by rewrite (run_getAnimalRoute_ext JSON_parse w1 w2 _ (query (url req2))).
Qed.

Lemma get_animal_deterministic_witness :
  run (worldWith 1 twoNavyText)
      (handler sampleParse (getRequest "/get-animal" {[ "variant" := QStr "Navy" ]}))
    = run (worldWith 2 twoNavyText)
        (handler sampleParse
           (getRequest "/get-animal" {[ "variant" := QStr "Navy"; "page" := QStr "2" ]}))
  ∧ body <$> result_option (run (worldWith 1 twoNavyText)
      (handler sampleParse (getRequest "/get-animal" {[ "variant" := QStr "Navy" ]})))
    = body <$> result_option (run (worldWith 2 twoNavyText)
        (handler sampleParse
           (getRequest "/get-animal" {[ "variant" := QStr "Navy"; "page" := QStr "2" ]}))).
Proof. apply get_animal_deterministic; reflexivity. Defined.

(** By contrast the answer of [/color] without a variant follows the draw. *)
Example color_follows_the_draw :
  body <$> result_option (run (worldWith 0 "[]") (handler sampleParse (getRequest "/color" ∅)))
    = Some (colorFragment "#2E191B")
  ∧ body <$> result_option
      (run (worldWith (2 ^ 52) "[]") (handler sampleParse (getRequest "/color" ∅)))
    = Some (colorFragment "#E6E6FA").
Proof. split; reflexivity. Qed.

(** ** Blank and repeated variants *)

Lemma handler_variantParam_ext `{!Builtins} (JSON_parse : string → result value) (req1 req2 : Request) :
  method req1 = method req2 → pathname (url req1) = pathname (url req2) →
  variantParam (query (url req1)) = variantParam (query (url req2)) →
  handler JSON_parse req1 = handler JSON_parse req2.
Proof.
  intros Hm Hp Hq. unfold handler, colorRoute, getAnimalRoute.
  by rewrite Hm, Hp, Hq.
Qed.

(** C9: a variant that is present and made of white space only is trimmed to
    the empty string, and the request is then handled exactly as the same
    request without any variant: [/get-animal] answers the 400 page of the
    missing parameter, [/color] takes the random branch. *)
Theorem blank_variant_is_missing `{!Builtins} (JSON_parse : string → result value)
    (req : Request) (s : string) :
  method req = "GET" →
  query (url req) !! "variant" = Some (QStr s) → allWhiteSpace s →
  trim s = ""
  ∧ handler JSON_parse req = handler JSON_parse (withoutVariant req)
  ∧ (pathname (url req) = Some "/get-animal" →
       handler JSON_parse req
         = Ret (Ok (mkResponse 400 "text/html; charset=utf-8"
                      (page "Falta parámetro" missingParamBody))))
  ∧ (pathname (url req) = Some "/color" → handler JSON_parse req = randomAnswer).
Proof.
  intros Hm Hq Hs. pose proof (trim_blank s Hs) as Ht.
  assert (variantParam (query (url req)) = Ok "") as Hv.
  { rewrite (variantParam_Some _ _ Hq). simpl. by rewrite Ht. }
  split; [done|]. split; [|split].
  - apply handler_variantParam_ext; [done..|]. rewrite Hv. symmetry.
    apply variantParam_None. cbn [withoutVariant url query]. apply lookup_delete_eq.
  - intros Hp. rewrite handler_get_animal by done. by rewrite getAnimalRoute_blank.
  - intros Hp. rewrite handler_color by done. unfold colorRoute. by rewrite Hv.
Qed.

Lemma nbspSpace_blank : allWhiteSpace nbspSpace.
Proof.
  exists [bytes [194; 160]; " "]. split; [|reflexivity].
  repeat constructor; by apply (bool_decide_unpack _).
Qed.

Lemma blank_variant_is_missing_witness :
  handler sampleParse (getRequest "/get-animal" {[ "variant" := QStr nbspSpace ]})
    = Ret (Ok (mkResponse 400 "text/html; charset=utf-8"
                 (page "Falta parámetro" missingParamBody)))
  ∧ handler sampleParse (getRequest "/color" {[ "variant" := QStr nbspSpace ]})
      = handler sampleParse (getRequest "/color" ∅).
Proof.
  split.
  - destruct (blank_variant_is_missing sampleParse
                (getRequest "/get-animal" {[ "variant" := QStr nbspSpace ]}) nbspSpace)
      as (_ & _ & H & _); [reflexivity | reflexivity | exact nbspSpace_blank |].
    apply H. reflexivity.
  - destruct (blank_variant_is_missing sampleParse
                (getRequest "/color" {[ "variant" := QStr nbspSpace ]}) nbspSpace)
      as (_ & _ & _ & H); [reflexivity | reflexivity | exact nbspSpace_blank |].
    rewrite H; reflexivity.
Defined.

(** C10: a variant that occurs more than once reaches the handler as an array
    and is turned into the comma-joined text of its values before the
    registry is searched, so the request is handled as the one that carries
    that text as a single value.  For [variant=Navy&variant=Navy] the text
    is [Navy,Navy], no colour of the registry matches it, and the answer is
    the randomly drawn colour instead of the entry of Navy. *)
Theorem repeated_variant_is_joined `{!Builtins} (JSON_parse : string → result value)
    (req : Request) (values : list string) :
  method req = "GET" → pathname (url req) = Some "/color" →
  query (url req) !! "variant" = Some (QArr values) →
  variantParam (query (url req)) = Ok (trim (String.concat "," values))
  ∧ handler JSON_parse req
      = handler JSON_parse (withVariant (QStr (String.concat "," values)) req)
  ∧ (values = ["Navy"; "Navy"] →
       variantParam (query (url req)) = Ok "Navy,Navy"
       ∧ Array_find (λ color, eqCi (VStr (color_variant color)) (VStr "Navy,Navy")) colors
           = Ok None
       ∧ handler JSON_parse req = randomAnswer
       ∧ ∀ w, unit_interval (Math_random w) →
           ∃ c, getRandomColor (Math_random w) = Some c
             ∧ run w (handler JSON_parse req)
                 = Ok (sendHtml (colorFragment (color_hex c)) 200)).
Proof.
  intros Hm Hp Hq.
  pose proof (variantParam_Some _ _ Hq) as Hv. cbn [queryText] in Hv. unfold join in Hv.
  split; [done|]. split.
  - apply handler_variantParam_ext; [done..|]. rewrite Hv. symmetry.
    apply (variantParam_Some _ (QStr _)). cbn [withVariant url query].
    apply lookup_insert_eq.
  - intros ->. change (trim _) with "Navy,Navy" in Hv.
    assert (Array_find (λ color, eqCi (VStr (color_variant color)) (VStr "Navy,Navy")) colors
            = Ok None) as Hnone.
    { unfold colors. cbn [Array_find color_variant].
      rewrite !eqCi_strings, !toLowerCase_ascii by reflexivity. reflexivity. }
    assert (handler JSON_parse req = randomAnswer) as Hh.
    { rewrite handler_color by done. unfold colorRoute.
      rewrite Hv, awaitA_Ok. cbn [truthy String.eqb negb]. by rewrite Hnone. }
    split; [done|]. split; [done|]. split; [done|].
    intros w (c & _ & Hc & Hrun)%run_random_color. exists c. split; [done|].
    by rewrite Hh.
Qed.

Lemma repeated_variant_is_joined_witness :
  run (worldWith 0 "[]")
      (handler sampleParse (getRequest "/color" {[ "variant" := QArr ["Navy"; "Navy"] ]}))
    = Ok (sendHtml (colorFragment "#2E191B") 200)
  ∧ handler sampleParse (getRequest "/color" {[ "variant" := QArr ["Navy"; "Navy"] ]})
      = randomAnswer.
Proof.
  split; [reflexivity|].
  apply (repeated_variant_is_joined sampleParse
           (getRequest "/color" {[ "variant" := QArr ["Navy"; "Navy"] ]}) ["Navy"; "Navy"]);
    reflexivity.
Defined.

(** ** The answers of /get-animal *)


Lemma fieldText_string (props : gmap string value) (key s : string) :
  getProp (VObj props) key = Ok (VStr s) → fieldText props key = Ok s.
Proof. unfold fieldText. cbn [getProp]. by intros [= ->]. Qed.

(** Only an object with a truthy [variant] that converts to text matches. *)
Lemma animalMatches_true `{!Builtins} (variant : string) (a : value) :
  animalMatches variant a = Ok true →
  ∃ props v, a = VObj props ∧ fieldText props "variant" = Ok v ∧ truthy a = true.
Proof.
  unfold animalMatches, fieldText. destruct a as [| | | | | |props]; cbn [optChain truthy]; try done.
  destruct (truthy (default VUndefined (props !! "variant"))); [|done].
  cbn [getProp mbind result_bind]. unfold eqCi.
  destruct (toStr (default VUndefined (props !! "variant"))) as [v|e] eqn:Hv; [|done].
  intros _. by exists props, v.
Qed.

Lemma animalPage_fields (props : gmap string value) (animalName variant urlImage : string) :
  fieldText props "animalName" = Ok animalName →
  fieldText props "variant" = Ok variant →
  fieldText props "urlImage" = Ok urlImage →
  animalPage (VObj props)
    = Ok (page (animalTitleText animalName variant)
               (animalBodyText animalName variant urlImage)).
Proof.
  unfold fieldText, animalPage. cbn [getProp mbind result_bind].
  by intros -> -> ->.
Qed.


(** Whatever the file holds, [/get-animal] answers. *)
Lemma get_animal_responds `{!Builtins} (JSON_parse : string → result value) (req : Request) (w : World) :
  method req = "GET" → pathname (url req) = Some "/get-animal" →
  ∃ resp, run w (handler JSON_parse req) = Ok resp.
Proof.
  intros Hm Hp. rewrite handler_get_animal by done.
  destruct (variantParam_total (query (url req))) as [variant Hv].
  destruct (decide (variant = "")) as [->|Hne].
  - rewrite getAnimalRoute_blank by done. by eexists.
  - rewrite (run_getAnimalRoute _ _ _ variant) by done.
    destruct (run w (findAnimalByVariant JSON_parse variant)) as [animal|err]; [|by eexists].
    destruct (truthy animal); [|by eexists].
    destruct (animalPage animal); by eexists.
Qed.

Lemma body_contains_fields (animalName variant urlImage : string) :
  contains (page (animalTitleText animalName variant)
                 (animalBodyText animalName variant urlImage)) animalName
  ∧ contains (page (animalTitleText animalName variant)
                   (animalBodyText animalName variant urlImage)) urlImage.
Proof.
  unfold page, animalTitleText, animalBodyText. split; find_occurrence.
Qed.

Lemma lookup_throws `{!Builtins} (JSON_parse : string → result value) (w : World)
    (variant : string) (err : JsError) :
  fs_readFile w jsonPath = Throw err
  ∨ (∃ file, fs_readFile w jsonPath = Ok file ∧ JSON_parse file = Throw err) →
  run w (findAnimalByVariant JSON_parse variant) = Throw err.
Proof.
  rewrite run_findAnimalByVariant. intros [->|(file & -> & Hp)]; [done|].
  cbn [mbind result_bind]. by rewrite Hp.
Qed.

(** C1, as the handler has it.  A GET request to [/get-animal] is always
    answered.  The status is 400 when the variant is missing or blank once
    trimmed.  Otherwise, when the animals file is read and parsed, it is 404
    if the parsed value is not an array or the search callback is false on
    every element; and when the callback is true on an element, false on
    every element before it, and the animal name and image URL of that
    element are strings, it is 200 and the body holds both.  When the file
    cannot be read or parsed the status is 500. *)
Theorem get_animal_statuses `{!Builtins} (JSON_parse : string → result value) (req : Request) (w : World) :
  method req = "GET" → pathname (url req) = Some "/get-animal" →
  ∃ variant resp,
    variantParam (query (url req)) = Ok variant
    ∧ run w (handler JSON_parse req) = Ok resp
    ∧ (query (url req) !! "variant" = None → variant = "")
    ∧ (variant = "" → statusCode resp = 400)
    ∧ (variant ≠ "" →
        (∀ err, fs_readFile w jsonPath = Throw err
                ∨ (∃ file, fs_readFile w jsonPath = Ok file ∧ JSON_parse file = Throw err) →
           statusCode resp = 500)
        ∧ ∀ file animals,
            fs_readFile w jsonPath = Ok file → JSON_parse file = Ok animals →
            (isArray animals = false
             ∨ (∃ elems, animals = VArr elems
                  ∧ Forall (λ a, animalMatches variant a = Ok false) elems) →
             statusCode resp = 404)
            ∧ ∀ before a after animalName urlImage,
                animals = VArr (before ++ a :: after) →
                Forall (λ x, animalMatches variant x = Ok false) before →
                animalMatches variant a = Ok true →
                getProp a "animalName" = Ok (VStr animalName) →
                getProp a "urlImage" = Ok (VStr urlImage) →
                statusCode resp = 200
                ∧ contains (body resp) animalName
                ∧ contains (body resp) urlImage).
Proof.
  intros Hm Hp.
  destruct (variantParam_total (query (url req))) as [variant Hv].
  destruct (get_animal_responds JSON_parse req w Hm Hp) as [resp Hrun].
  exists variant, resp. split; [done|]. split; [done|]. split; [|split].
  - intros Hnone. rewrite (variantParam_None _ Hnone) in Hv. congruence.
  - intros ->. rewrite handler_get_animal, getAnimalRoute_blank in Hrun by done.
    by injection Hrun as <-.
  - intros Hne. rewrite handler_get_animal, (run_getAnimalRoute _ _ _ variant) in Hrun by done.
    split.
    { intros err Herr. rewrite (lookup_throws _ _ _ _ Herr) in Hrun. by injection Hrun as <-. }
    intros file animals Hf Hparse. split.
    + intros [Hna|(elems & -> & Hnone)].
      * rewrite (lookup_non_array _ _ _ _ _ Hf Hparse Hna) in Hrun. by injection Hrun as <-.
      * rewrite (lookup_no_match _ _ _ _ _ Hf Hparse Hnone) in Hrun. by injection Hrun as <-.
    + intros before a after animalName urlImage -> Hb Ha Hn Hu.
      rewrite (lookup_first _ _ _ _ _ _ _ Hf Hparse Hb Ha) in Hrun.
      destruct (animalMatches_true _ _ Ha) as (props & v & -> & Hvar & Ht).
      rewrite Ht in Hrun.
      rewrite (animalPage_fields props animalName v urlImage) in Hrun
        by (done || by apply fieldText_string).
      injection Hrun as <-. split; [done|]. apply body_contains_fields.
Qed.

Lemma get_animal_statuses_witness :
  ∃ resp,
    run (worldWith 0 twoNavyText)
        (handler sampleParse (getRequest "/get-animal" {[ "variant" := QStr " navy " ]}))
      = Ok resp
    ∧ statusCode resp = 200 ∧ contains (body resp) "Whale"
    ∧ contains (body resp) "/img/whale.png".
Proof.
  destruct (get_animal_statuses sampleParse
              (getRequest "/get-animal" {[ "variant" := QStr " navy " ]})
              (worldWith 0 twoNavyText) eq_refl eq_refl)
    as (variant & resp & Hv & Hrun & _ & _ & Hfound).
  injection Hv as <-. exists resp. split; [exact Hrun|].
  destruct Hfound as [_ Hfound]; [discriminate|].
  destruct (Hfound twoNavyText twoNavy eq_refl eq_refl) as [_ Hfirst].
  apply (Hfirst [frog] whale [shark] "Whale" "/img/whale.png");
    [reflexivity | | reflexivity ..].
  constructor; [reflexivity | constructor].
Defined.

(** C1 as stated fails on a variant that is present and blank: with no
    matching record in the file the answer is 400, not 404. *)
Lemma get_animal_blank_variant_is_400 :
  query (url (getRequest "/get-animal" {[ "variant" := QStr " " ]})) !! "variant"
    = Some (QStr " ")
  ∧ fs_readFile (worldWith 0 "[]") jsonPath = Ok "[]"
  ∧ sampleParse "[]" = Ok (VArr [])
  ∧ statusCode <$> result_option
      (run (worldWith 0 "[]")
           (handler sampleParse (getRequest "/get-animal" {[ "variant" := QStr " " ]})))
    = Some 400
  ∧ Nat.eqb 400 404 = false.
Proof. repeat split; reflexivity. Qed.




(** ** The dispatch *)

Lemma handler_root `{!Builtins} (JSON_parse : string → result value) (req : Request) :
  method req = "GET" → pathname (url req) = Some "/" →
  handler JSON_parse req = resolve (sendHtml (page "Bienvenidos" welcomeBody) 200).
Proof. intros Hm Hp. unfold handler. rewrite Hm, Hp. reflexivity. Qed.

Lemma handler_get_colors `{!Builtins} (JSON_parse : string → result value) (req : Request) :
  method req = "GET" → pathname (url req) = Some "/get-colors" →
  handler JSON_parse req = getColorsRoute.
Proof. intros Hm Hp. unfold handler. rewrite Hm, Hp. reflexivity. Qed.

Lemma handler_fallback `{!Builtins} (JSON_parse : string → result value) (req : Request) :
  method req = "GET" → (∀ path, path ∈ routes → pathname (url req) ≠ Some path) →
  handler JSON_parse req = resolve (sendHtml (page "404" fallbackBody) 404).
Proof.
  intros Hm Hp. unfold handler. rewrite Hm. cbn [negb String.eqb Ascii.eqb Bool.eqb].
  cbv zeta.
  rewrite !bool_decide_eq_false_2; [done|apply Hp; unfold routes..].
  all: rewrite !elem_of_cons; auto 6.
Qed.

Lemma handler_dispatch `{!Builtins} (JSON_parse : string → result value) (req : Request) :
  Dispatch JSON_parse req.
Proof.
  destruct (decide (method req = "GET")) as [Hm|Hm].
  - destruct (decide (pathname (url req) = Some "/")) as [H1|H1];
      [by apply ToRoot; [..|apply handler_root]|].
    destruct (decide (pathname (url req) = Some "/color")) as [H2|H2];
      [by apply ToColor; [..|apply handler_color]|].
    destruct (decide (pathname (url req) = Some "/get-colors")) as [H3|H3];
      [by apply ToGetColors; [..|apply handler_get_colors]|].
    destruct (decide (pathname (url req) = Some "/get-animal")) as [H4|H4];
      [by apply ToGetAnimal; [..|apply handler_get_animal]|].
    assert (∀ path, path ∈ routes → pathname (url req) ≠ Some path) as Hp.
    { intros path Hin Heq. unfold routes in Hin.
      rewrite !elem_of_cons, elem_of_nil in Hin.
      destruct Hin as [->|[->|[->|[->|[]]]]]; congruence. }
    apply ToFallback; [done..|by apply handler_fallback].
  - apply ByMethod; [done|]. unfold handler.
    apply String.eqb_neq in Hm. by rewrite Hm.
Qed.

Lemma run_colorRoute `{!Builtins} (w : World) (q : gmap string qvalue) :
  unit_interval (Math_random w) →
  ∃ c, c ∈ colors ∧ run w (colorRoute q) = Ok (sendHtml (colorFragment (color_hex c)) 200).
Proof.
  intros Hr. unfold colorRoute.
  destruct (variantParam_total q) as [variant ->]. rewrite awaitA_Ok.
  destruct (truthy (VStr variant)).
  - destruct (Array_find_total
      (λ color, eqCi (VStr (color_variant color)) (VStr variant)) colors) as [found Hf].
    { intros c. apply eqCi_strings_total. }
    rewrite Hf, awaitA_Ok. destruct found as [chosen|].
    + exists chosen. split; [|done]. by apply Array_find_Some in Hf as [??].
    + destruct (run_random_color w Hr) as (c & Hin & _ & ->). by exists c.
  - destruct (run_random_color w Hr) as (c & Hin & _ & ->). by exists c.
Qed.

(** X1: a GET request whose path is none of the four routes, or has no path
    at all, gets the 404 page; the match is exact, so [/Color] and [/color/]
    are unknown paths.  Nothing is read and nothing is drawn. *)
Theorem unknown_path_is_404 `{!Builtins} (JSON_parse : string → result value) (req : Request) :
  method req = "GET" →
  (∀ path, path ∈ routes → pathname (url req) ≠ Some path) →
  handler JSON_parse req
    = Ret (Ok (mkResponse 404 "text/html; charset=utf-8" (page "404" fallbackBody)))
  ∧ ∀ w, effects w (handler JSON_parse req) = 0.
Proof. intros Hm Hp. rewrite handler_fallback by done. by split. Qed.

Lemma unknown_path_is_404_witness :
  (handler sampleParse (getRequest "/Color" {[ "variant" := QStr "Navy" ]})
     = Ret (Ok (mkResponse 404 "text/html; charset=utf-8" (page "404" fallbackBody)))
   ∧ ∀ w, effects w (handler sampleParse (getRequest "/Color" {[ "variant" := QStr "Navy" ]})) = 0)
  ∧ (handler sampleParse (mkRequest "GET" (mkUrl None ∅))
     = Ret (Ok (mkResponse 404 "text/html; charset=utf-8" (page "404" fallbackBody)))
   ∧ ∀ w, effects w (handler sampleParse (mkRequest "GET" (mkUrl None ∅))) = 0).
Proof.
  split; apply unknown_path_is_404; try reflexivity.
  - intros path Hin. unfold routes in Hin. rewrite !elem_of_cons, elem_of_nil in Hin.
    destruct Hin as [->|[->|[->|[->|[]]]]]; discriminate.
  - discriminate.
Defined.

Lemma run_getAnimalRoute_shape `{!Builtins} (JSON_parse : string → result value) (w : World)
    (q : gmap string qvalue) :
  ∃ resp, run w (getAnimalRoute JSON_parse q) = Ok resp
    ∧ statusCode resp ∈ [200; 400; 404; 500]
    ∧ contentType resp = "text/html; charset=utf-8".
Proof.
  destruct (variantParam_total q) as [variant Hv].
  destruct (decide (variant = "")) as [->|Hne].
  - rewrite getAnimalRoute_blank by done. eexists. split; [done|].
    split; [|done]. cbn. rewrite !elem_of_cons. auto.
  - rewrite (run_getAnimalRoute _ _ _ variant) by done.
    destruct (run w (findAnimalByVariant JSON_parse variant)) as [animal|err];
      [destruct (truthy animal); [destruct (animalPage animal)|]|];
      (eexists; split; [done|]; split; [|done]; cbn; rewrite !elem_of_cons; auto 6).
Qed.

Lemma handler_answers `{!Builtins} (JSON_parse : string → result value)
    (req : Request) (w : World) :
  unit_interval (Math_random w) →
  ∃ resp, run w (handler JSON_parse req) = Ok resp
    ∧ statusCode resp ∈ statusCodes
    ∧ contentType resp
        = if Nat.eqb (statusCode resp) 405 then "text/plain; charset=utf-8"
          else "text/html; charset=utf-8".
Proof.
  intros Hr. unfold statusCodes.
  destruct (handler_dispatch JSON_parse req) as [_ ->|_ _ ->|_ _ ->|_ _ ->|_ _ ->|_ _ ->].
  - eexists. split; [done|]. split; [|done]. cbn. rewrite !elem_of_cons. auto 6.
  - eexists. split; [done|]. split; [|done]. cbn. rewrite !elem_of_cons. auto 6.
  - destruct (run_colorRoute w (query (url req)) Hr) as (c & _ & ->).
    eexists. split; [done|]. split; [|done]. cbn. rewrite !elem_of_cons. auto 6.
  - eexists. split; [done|]. split; [|done]. cbn. rewrite !elem_of_cons. auto 6.
  - destruct (run_getAnimalRoute_shape JSON_parse w (query (url req)))
      as (resp & -> & Hs & Hc).
    exists resp. split; [done|]. rewrite Hc. rewrite !elem_of_cons, elem_of_nil in Hs.
    rewrite !elem_of_cons.
    destruct Hs as [->|[->|[->|[->|[]]]]]; split; auto 6.
  - eexists. split; [done|]. split; [|done]. cbn. rewrite !elem_of_cons. auto 6.
Qed.

(** X2: the listener rejects in one case only, a GET request whose URL
    [url.parse] throws on, and then with that error.  In every other case,
    whatever the method, the path, the query and the animals file, it
    resolves with a response whose status is one of 200, 400, 404, 405 and
    500 and whose content type is HTML except on 405, which is plain text. *)
Theorem listener_answers_or_rejects `{!Builtins} (JSON_parse : string → result value)
    (method : string) (parsed : result Url) (w : World) :
  unit_interval (Math_random w) →
  (method = "GET" → ∀ err, parsed = Throw err →
     run w (requestListener JSON_parse method parsed) = Throw err)
  ∧ (method ≠ "GET" ∨ is_Some (result_option parsed) →
     ∃ resp, run w (requestListener JSON_parse method parsed) = Ok resp
       ∧ statusCode resp ∈ statusCodes
       ∧ contentType resp
           = if Nat.eqb (statusCode resp) 405 then "text/plain; charset=utf-8"
             else "text/html; charset=utf-8").
Proof.
  intros Hr. unfold requestListener. split.
  - intros -> err ->. reflexivity.
  - destruct (String.eqb_spec method "GET") as [->|Hne]; cbn [negb].
    + intros [?|[u Hu]]; [done|]. destruct parsed as [parsedUrl|err]; [|done].
      by apply handler_answers.
    + intros _. eexists. split; [done|]. split; [|done].
      unfold statusCodes. cbn. rewrite !elem_of_cons. auto 6.
Qed.

Lemma listener_answers_or_rejects_witness :
  run (worldWith 7 "[]")
      (requestListener sampleParse "GET" (Throw (mkError "URIError" "URI malformed")))
    = Throw (mkError "URIError" "URI malformed")
  ∧ run (worldWith 7 "[]")
      (requestListener sampleParse "POST" (Throw (mkError "URIError" "URI malformed")))
    = Ok (sendText "Method Not Allowed" 405).
Proof.
  destruct (listener_answers_or_rejects sampleParse "GET"
              (Throw (mkError "URIError" "URI malformed")) (worldWith 7 "[]"))
    as [H _]; [unfold unit_interval; simpl; lia|].
  split; [by apply H | reflexivity].
Defined.

(** ** More on the route /color *)

Lemma colorRoute_named `{!Builtins} (q : gmap string qvalue) (variant : string) (c : Color) :
  c ∈ colors → variantParam q = Ok variant →
  eqCi (VStr (color_variant c)) (VStr variant) = Ok true →
  colorRoute q = resolve (sendHtml (colorFragment (color_hex c)) 200).
Proof.
  intros Hin Hv Heq. unfold colorRoute. rewrite Hv, awaitA_Ok.
  assert (toLowerCase (color_variant c) = toLowerCase variant) as Hlow.
  { apply String.eqb_eq. rewrite eqCi_strings in Heq. congruence. }
  clear Heq. unfold colors in Hin. rewrite !elem_of_cons, elem_of_nil in Hin.
  repeat (destruct Hin as [->|Hin];
          [cbn [color_variant] in Hlow; rewrite toLowerCase_ascii in Hlow by reflexivity|]);
    [..|done].
  all: assert (truthy (VStr variant) = true) as ->
         by (apply truthy_VStr; intros ->;
             rewrite (toLowerCase_ascii "") in Hlow by reflexivity; discriminate Hlow).
  all: unfold colors; cbn [Array_find color_variant].
  all: rewrite !eqCi_strings, <- Hlow, !toLowerCase_ascii by reflexivity; reflexivity.
Qed.

(** X3: for every entry of the registry, a GET request to [/color] whose
    variant equals the name of the entry, in any letter case and with any
    surrounding white space, is answered with the hex code of that very
    entry: no two names of the registry are equal up to case.  No random
    number is drawn. *)
Theorem color_named_entry `{!Builtins} (JSON_parse : string → result value) (req : Request)
    (variant : string) (c : Color) :
  method req = "GET" → pathname (url req) = Some "/color" →
  c ∈ colors → variantParam (query (url req)) = Ok variant →
  eqCi (VStr (color_variant c)) (VStr variant) = Ok true →
  handler JSON_parse req
    = Ret (Ok (mkResponse 200 "text/html; charset=utf-8" (colorFragment (color_hex c))))
  ∧ ∀ w, draws w (handler JSON_parse req) = 0.
Proof.
  intros Hm Hp Hin Hv Heq. rewrite handler_color by done.
  by rewrite (colorRoute_named _ variant c).
Qed.

Lemma color_named_entry_witness :
  handler sampleParse (getRequest "/color" {[ "variant" := QStr "  sky blue " ]})
    = Ret (Ok (mkResponse 200 "text/html; charset=utf-8" (colorFragment "#87CEEB")))
  ∧ ∀ w, draws w (handler sampleParse
                    (getRequest "/color" {[ "variant" := QStr "  sky blue " ]})) = 0.
Proof.
  apply (color_named_entry sampleParse _ "sky blue" (mkColor "Sky Blue" "#87CEEB"));
    try reflexivity.
  unfold colors. rewrite !elem_of_cons. auto 10.
Defined.

Lemma colorRoute_unmatched `{!Builtins} (q : gmap string qvalue) (variant : string) :
  variantParam q = Ok variant →
  Forall (λ c, eqCi (VStr (color_variant c)) (VStr variant) = Ok false) colors →
  colorRoute q = randomAnswer.
Proof.
  intros Hv Hnone. unfold colorRoute. rewrite Hv, awaitA_Ok.
  rewrite (Array_find_None _ _ Hnone), awaitA_Ok. by destruct (truthy (VStr variant)).
Qed.

(** X4: a GET request to [/color] whose variant matches no name of the
    registry is handled exactly as a request without variant: one random
    number is drawn and the colour it selects is the answer. *)
Theorem color_unmatched_is_random `{!Builtins} (JSON_parse : string → result value) (req : Request)
    (variant : string) :
  method req = "GET" → pathname (url req) = Some "/color" →
  variantParam (query (url req)) = Ok variant →
  Forall (λ c, eqCi (VStr (color_variant c)) (VStr variant) = Ok false) colors →
  handler JSON_parse req = handler JSON_parse (withoutVariant req)
  ∧ (∀ w, draws w (handler JSON_parse req) = 1)
  ∧ ∀ w, unit_interval (Math_random w) →
      ∃ c, getRandomColor (Math_random w) = Some c
        ∧ run w (handler JSON_parse req) = Ok (sendHtml (colorFragment (color_hex c)) 200).
Proof.
  intros Hm Hp Hv Hnone.
  assert (handler JSON_parse req = randomAnswer) as Hh.
  { rewrite handler_color by done. by apply (colorRoute_unmatched _ variant). }
  split; [|split].
  - rewrite Hh. symmetry. rewrite handler_color by done.
    unfold colorRoute. rewrite variantParam_None; [done|].
    cbn [withoutVariant url query]. apply lookup_delete_eq.
  - intros w. by rewrite Hh.
  - intros w (c & _ & Hc & Hrun)%run_random_color. exists c. by rewrite Hh.
Qed.

Lemma color_unmatched_is_random_witness :
  handler sampleParse (getRequest "/color" {[ "variant" := QStr "Purple" ]})
    = handler sampleParse (withoutVariant (getRequest "/color" {[ "variant" := QStr "Purple" ]}))
  ∧ run (worldWith (2 ^ 52) "[]")
        (handler sampleParse (getRequest "/color" {[ "variant" := QStr "Purple" ]}))
      = Ok (sendHtml (colorFragment "#E6E6FA") 200).
Proof.
  destruct (color_unmatched_is_random sampleParse
              (getRequest "/color" {[ "variant" := QStr "Purple" ]}) "Purple")
    as (H1 & _ & _); [reflexivity..| |].
  - unfold colors. repeat (constructor; [reflexivity|]). constructor.
  - split; [exact H1 | reflexivity].
Defined.

(** X5: a draw of [[0, 1)] always selects an entry of the registry, the
    rounding of the double product included: the product of a double below
    one by 15 is a double below 15.  Every entry is selected by some draw.
    At the draw [4803839602528529 / 2^53] the exact product is just below 8
    and the double product is 8: the entry selected is the ninth. *)
Theorem getRandomColor_in_range :
  (∀ m, unit_interval m → ∃ c, c ∈ colors ∧ getRandomColor m = Some c)
  ∧ (∀ c, c ∈ colors → ∃ m, unit_interval m ∧ getRandomColor m = Some c)
  ∧ (4803839602528529 * 15 / 2 ^ 53 = 7)%N
  ∧ getRandomColor 4803839602528529 = Some (mkColor "Tangerine" "#F28500").
Proof.
  split; [|split; [|split; reflexivity]].
  - intros m (c & Hc & Hin)%getRandomColor_Some. by exists c.
  - intros c Hin. apply list_elem_of_lookup_1 in Hin as [i Hi].
    exists ((N.of_nat i * 2 ^ 53 + 14) / 15)%N.
    assert (i < 15)%nat as Hlt by (apply lookup_lt_Some in Hi; exact Hi).
    do 15 (destruct i as [|i]; [split; [reflexivity|exact Hi]|]). lia.
Qed.

(** ** The route /get-colors *)

Lemma append_nil_r (s : string) : s +:+ "" = s.
Proof.
  induction s as [|c s IH]; [done|].
  change (String c (s +:+ "") = String c s). by rewrite IH.
Qed.

Lemma contains_refl (s : string) : contains s s.
Proof. exists "", "". by rewrite append_nil_r. Qed.

Lemma contains_trans (a b c : string) : contains a b → contains b c → contains a c.
Proof.
  intros (p1 & q1 & ->) (p2 & q2 & ->). exists (p1 +:+ p2), (q2 +:+ q1).
  by rewrite !append_assoc.
Qed.

Lemma contains_join (sep : string) (l : list string) (x : string) :
  x ∈ l → contains (join sep l) x.
Proof.
  unfold join. induction l as [|y l IH]; [by intros ?%elem_of_nil|].
  intros [->|Hin]%elem_of_cons.
  - destruct l; [apply contains_refl|]. cbn [String.concat]. apply contains_here.
  - destruct l as [|z l]; [by apply elem_of_nil in Hin|].
    change (String.concat sep (y :: z :: l))
      with (y +:+ sep +:+ String.concat sep (z :: l)).
    do 2 apply contains_app_r. by apply IH.
Qed.

Lemma contains_prefix (s sub after : string) : s = sub +:+ after → contains s sub.
Proof. intros ->. apply contains_here. Qed.

Ltac find_segment :=
  first [ eapply contains_prefix; rewrite ?append_assoc; reflexivity
        | apply contains_app_r; find_segment ].

(** X6: the page of [/get-colors] is answered 200 and lists every colour of
    the registry: for each entry it holds the entry's name and hex code and
    the two quoted link targets [/color?variant=NAME] and
    [/get-animal?variant=NAME], with the name percent-encoded. *)
Theorem get_colors_lists_registry `{!Builtins} (JSON_parse : string → result value)
    (req : Request) (c : Color) :
  method req = "GET" → pathname (url req) = Some "/get-colors" → c ∈ colors →
  ∃ html,
    handler JSON_parse req = Ret (Ok (mkResponse 200 "text/html; charset=utf-8" html))
    ∧ contains html
        (dq +:+ "/color?variant=" +:+ encodeURIComponent (color_variant c) +:+ dq)
    ∧ contains html
        (dq +:+ "/get-animal?variant=" +:+ encodeURIComponent (color_variant c) +:+ dq)
    ∧ contains html (color_variant c)
    ∧ contains html (color_hex c).
Proof.
  intros Hm Hp Hin. rewrite handler_get_colors by done. eexists. split; [reflexivity|].
  pose proof (contains_join "
" _ _ (list_elem_of_fmap_2 colorItem _ _ Hin)) as Hjoin.
  assert (contains (page "Colores disponibles"
            (colorsBody (join "
" (colorItem <$> colors)))) (colorItem c)) as Hitem.
  { eapply contains_trans; [|exact Hjoin].
    unfold page, colorsBody. find_occurrence. }
  repeat split; (eapply contains_trans; [exact Hitem|]); unfold colorItem; find_segment.
Qed.

Lemma get_colors_lists_registry_witness :
  ∃ html,
    handler sampleParse (getRequest "/get-colors" ∅)
      = Ret (Ok (mkResponse 200 "text/html; charset=utf-8" html))
    ∧ contains html (dq +:+ "/color?variant=Sky%20Blue" +:+ dq)
    ∧ contains html (dq +:+ "/get-animal?variant=Sky%20Blue" +:+ dq)
    ∧ contains html "Sky Blue"
    ∧ contains html "#87CEEB".
Proof.
  apply (get_colors_lists_registry sampleParse (getRequest "/get-colors" ∅)
           (mkColor "Sky Blue" "#87CEEB")); try reflexivity.
  unfold colors. rewrite !elem_of_cons. auto 10.
Defined.

(** ** More on the animal lookup *)

Lemma Array_find_Some_split {A : Type} (p : A → result bool) (l : list A) (x : A) :
  Array_find p l = Ok (Some x) →
  ∃ before after : list A, l = (before ++ x :: after)%list
    ∧ Forall (λ y, p y = Ok false) before ∧ p x = Ok true.
Proof.
  induction l as [|y l IH]; cbn [Array_find]; [done|].
  destruct (p y) as [[|]|e] eqn:Hy; cbn [mbind result_bind]; [| |done].
  - intros [= <-]. by exists [], l.
  - intros (before & after & -> & Hb & Hx)%IH.
    exists (y :: before), after. split; [done|]. split; [by constructor|done].
Qed.

Lemma Array_find_None_inv {A : Type} (p : A → result bool) (l : list A) :
  Array_find p l = Ok None → Forall (λ y, p y = Ok false) l.
Proof.
  induction l as [|y l IH]; cbn [Array_find]; [constructor|].
  destruct (p y) as [[|]|e] eqn:Hy; cbn [mbind result_bind]; [done| |done].
  intros ?%IH. by constructor.
Qed.

Lemma Array_find_ext {A : Type} (p q : A → result bool) (l : list A) :
  (∀ x, p x = q x) → Array_find p l = Array_find q l.
Proof.
  intros H. induction l as [|y l IH]; cbn [Array_find]; [done|]. by rewrite H, IH.
Qed.

(** X7: whenever the lookup returns, the file was read and parsed, and the
    result is accounted for by the parsed value: [undefined] means that the
    value is not an array or that the callback is false on every element; any
    other result is an object of the array on which the callback is true,
    with the callback false on every element before it. *)
Theorem lookup_sound `{!Builtins} (JSON_parse : string → result value) (w : World)
    (variant : string) (a : value) :
  run w (findAnimalByVariant JSON_parse variant) = Ok a →
  ∃ file animals,
    fs_readFile w jsonPath = Ok file ∧ JSON_parse file = Ok animals
    ∧ ((a = VUndefined
        ∧ (isArray animals = false
           ∨ ∃ elems, animals = VArr elems
               ∧ Forall (λ x, animalMatches variant x = Ok false) elems))
       ∨ (∃ (before after : list value) props,
            a = VObj props ∧ animals = VArr (before ++ a :: after)
            ∧ Forall (λ x, animalMatches variant x = Ok false) before
            ∧ animalMatches variant a = Ok true)).
Proof.
  rewrite run_findAnimalByVariant.
  destruct (fs_readFile w jsonPath) as [file|e]; [|done]. cbn [mbind result_bind].
  destruct (JSON_parse file) as [animals|e] eqn:Hp; [|done]. cbn [mbind result_bind].
  intros Ha. exists file, animals. split; [done|]. split; [done|].
  destruct animals as [| | | | |elems|props];
    try (injection Ha as <-; left; split; [done|by left]).
  destruct (Array_find (animalMatches variant) elems) as [[found|]|e] eqn:Hf; [| |done].
  - injection Ha as <-. right.
    apply Array_find_Some_split in Hf as (before & after & -> & Hb & Hx).
    destruct (animalMatches_true _ _ Hx) as (props & _ & -> & _).
    by exists before, after, props.
  - injection Ha as <-. left. split; [done|]. right. exists elems. split; [done|].
    by apply Array_find_None_inv.
Qed.

Lemma lookup_sound_witness :
  ∃ file animals,
    fs_readFile (worldWith 0 twoNavyText) jsonPath = Ok file ∧ sampleParse file = Ok animals
    ∧ ((whale = VUndefined
        ∧ (isArray animals = false
           ∨ ∃ elems, animals = VArr elems
               ∧ Forall (λ x, animalMatches "navy" x = Ok false) elems))
       ∨ (∃ (before after : list value) props,
            whale = VObj props ∧ animals = VArr (before ++ whale :: after)
            ∧ Forall (λ x, animalMatches "navy" x = Ok false) before
            ∧ animalMatches "navy" whale = Ok true)).
Proof. apply (lookup_sound sampleParse (worldWith 0 twoNavyText) "navy" whale). reflexivity. Defined.

Lemma animalMatches_lower `{!Builtins} (v1 v2 : string) (a : value) :
  toLowerCase v1 = toLowerCase v2 → animalMatches v1 a = animalMatches v2 a.
Proof.
  intros Hlow. unfold animalMatches. destruct (truthy (optChain a "variant")); [|done].
  destruct (getProp a "variant") as [v|e]; [|done]. cbn [mbind result_bind].
  unfold eqCi. destruct (toStr v) as [s|e]; [|done]. cbn [mbind result_bind toStr].
  by rewrite Hlow.
Qed.

(** X8: the lookup does not depend on the letter case of the queried
    variant: two variants with the same lower-case text get the same result
    from the same file, be it a record, [undefined] or an exception. *)
Theorem lookup_ignores_case `{!Builtins} (JSON_parse : string → result value) (w : World)
    (v1 v2 : string) :
  toLowerCase v1 = toLowerCase v2 →
  run w (findAnimalByVariant JSON_parse v1) = run w (findAnimalByVariant JSON_parse v2).
Proof.
  intros Hlow. rewrite !run_findAnimalByVariant.
  destruct (fs_readFile w jsonPath) as [file|e]; [|done]. cbn [mbind result_bind].
  destruct (JSON_parse file) as [animals|e]; [|done]. cbn [mbind result_bind].
  destruct animals; try done.
  by rewrite (Array_find_ext _ (animalMatches v2)) by (intros x; by apply animalMatches_lower).
Qed.

Lemma lookup_ignores_case_witness :
  run (worldWith 0 twoNavyText) (findAnimalByVariant sampleParse "nAvY")
    = run (worldWith 0 twoNavyText) (findAnimalByVariant sampleParse "NAVY").
Proof. apply lookup_ignores_case. reflexivity. Defined.

(** ** The error pages of /get-animal *)

Lemma errorBody_contains (message : string) : contains (errorBody message) message.
Proof. unfold errorBody. find_occurrence. Qed.

Lemma page_contains_body (title body sub : string) :
  contains body sub → contains (page title body) sub.
Proof.
  intros H. unfold page. do 19 apply contains_app_r. by apply contains_app_l.
Qed.

(** X9: when the animals file cannot be read, or its text does not parse, a
    GET request to [/get-animal] with a variant is answered 500 with the
    error page, and the page holds the message of the error as it is (the
    name of the error when the message is empty). *)
Theorem server_error_echoes_message `{!Builtins} (JSON_parse : string → result value)
    (req : Request) (w : World) (variant : string) (err : JsError) :
  method req = "GET" → pathname (url req) = Some "/get-animal" →
  variantParam (query (url req)) = Ok variant → variant ≠ "" →
  fs_readFile w jsonPath = Throw err
  ∨ (∃ file, fs_readFile w jsonPath = Ok file ∧ JSON_parse file = Throw err) →
  ∃ html,
    run w (handler JSON_parse req) = Ok (mkResponse 500 "text/html; charset=utf-8" html)
    ∧ contains html (errorText err)
    ∧ (err_message err ≠ "" → contains html (err_message err))
    ∧ (err_message err = "" → errorText err = err_name err).
Proof.
  intros Hm Hp Hv Hne Herr. eexists. split.
  - rewrite handler_get_animal, (run_getAnimalRoute _ _ _ variant) by done.
    by rewrite (lookup_throws _ _ _ _ Herr).
  - assert (contains (page "Error del servidor" (errorBody (errorText err))) (errorText err))
      as Hc by apply page_contains_body, errorBody_contains.
    split; [done|]. unfold errorText in *. split.
    + intros Hmsg%truthy_VStr. rewrite Hmsg in Hc |- *. exact Hc.
    + intros Hmsg%truthy_VStr_false. by rewrite Hmsg.
Qed.

Lemma server_error_echoes_message_witness :
  ∃ html,
    run (worldWith 0 "<animals>")
        (handler sampleParse (getRequest "/get-animal" {[ "variant" := QStr "Navy" ]}))
      = Ok (mkResponse 500 "text/html; charset=utf-8" html)
    ∧ contains html "Unexpected token in JSON".
Proof.
  destruct (server_error_echoes_message sampleParse
              (getRequest "/get-animal" {[ "variant" := QStr "Navy" ]})
              (worldWith 0 "<animals>") "Navy"
              (mkError "SyntaxError" "Unexpected token in JSON"))
    as (html & Hrun & Hc & _); [reflexivity | reflexivity | reflexivity | discriminate | |].
  - right. exists "<animals>". split; reflexivity.
  - exists html. split; [exact Hrun | exact Hc].
Defined.

(** X10: the 404 page of [/get-animal] shows the variant as the handler
    normalised it, trimmed and otherwise unchanged: markup in the variant
    reaches the page as it is. *)
Theorem not_found_echoes_variant `{!Builtins} (JSON_parse : string → result value)
    (req : Request) (w : World) (s : string) :
  method req = "GET" → pathname (url req) = Some "/get-animal" →
  query (url req) !! "variant" = Some (QStr s) → trim s ≠ "" →
  run w (findAnimalByVariant JSON_parse (trim s)) = Ok VUndefined →
  ∃ html,
    run w (handler JSON_parse req) = Ok (mkResponse 404 "text/html; charset=utf-8" html)
    ∧ contains html (trim s).
Proof.
  intros Hm Hp Hq Hne Hrun. eexists. split.
  - rewrite handler_get_animal by done.
    rewrite (run_getAnimalRoute _ _ _ (trim s));
      [|by apply (variantParam_Some _ (QStr s))|done].
    by rewrite Hrun.
  - apply page_contains_body. unfold notFoundBody. find_occurrence.
Qed.

Lemma not_found_echoes_variant_witness :
  ∃ html,
    run (worldWith 0 "[]")
        (handler sampleParse (getRequest "/get-animal" {[ "variant" := QStr " <b>Navy</b> " ]}))
      = Ok (mkResponse 404 "text/html; charset=utf-8" html)
    ∧ contains html "<b>Navy</b>".
Proof.
  apply (not_found_echoes_variant sampleParse
           (getRequest "/get-animal" {[ "variant" := QStr " <b>Navy</b> " ]})
           (worldWith 0 "[]") " <b>Navy</b> "); try reflexivity.
  discriminate.
Defined.

(** X11: the [try] block covers the rendering of the page as well as the
    lookup: when the record found has a name or an image that cannot be
    converted to text, the answer is the 500 page of that error, not a
    rejected request. *)
Theorem render_error_is_500 `{!Builtins} (JSON_parse : string → result value) (req : Request)
    (w : World) (variant file : string) (before after : list value)
    (props : gmap string value) (err : JsError) :
  method req = "GET" → pathname (url req) = Some "/get-animal" →
  variantParam (query (url req)) = Ok variant → variant ≠ "" →
  fs_readFile w jsonPath = Ok file →
  JSON_parse file = Ok (VArr (before ++ VObj props :: after)) →
  Forall (λ x, animalMatches variant x = Ok false) before →
  animalMatches variant (VObj props) = Ok true →
  fieldText props "animalName" = Throw err
  ∨ (is_Some (result_option (fieldText props "animalName"))
     ∧ fieldText props "urlImage" = Throw err) →
  run w (handler JSON_parse req)
    = Ok (mkResponse 500 "text/html; charset=utf-8"
            (page "Error del servidor" (errorBody (errorText err)))).
Proof.
  intros Hm Hp Hv Hne Hf Hparse Hb Ha Herr.
  destruct (animalMatches_true _ _ Ha) as (props' & v & [= <-] & Hvar & Ht).
  rewrite handler_get_animal, (run_getAnimalRoute _ _ _ variant) by done.
  rewrite (lookup_first _ _ _ _ _ _ _ Hf Hparse Hb Ha), Ht.
  unfold animalPage, fieldText in *. cbn [getProp mbind result_bind].
  destruct Herr as [->|[[n Hn] Hu]]; [done|].
  destruct (toStr (default VUndefined (props !! "animalName"))); [|done].
  cbn [mbind result_bind]. rewrite Hvar. cbn [mbind result_bind]. by rewrite Hu.
Qed.

Lemma render_error_is_500_witness :
  run (worldWith 0 oddNameText)
      (handler sampleParseOdd (getRequest "/get-animal" {[ "variant" := QStr "navy" ]}))
    = Ok (mkResponse 500 "text/html; charset=utf-8"
            (page "Error del servidor"
               (errorBody "Cannot convert object to primitive value"))).
Proof.
  apply (render_error_is_500 sampleParseOdd _ _ "navy" oddNameText [] [] oddNameProps
           (TypeError "Cannot convert object to primitive value"));
    try reflexivity.
  - discriminate.
  - constructor.
  - left. reflexivity.
Defined.

(** ** What a request asks of the world *)

Lemma filesRead_bindP {A B : Type} (w : World) (p : Prog A) (f : A → Prog B) :
  filesRead w (bindP p f) = (filesRead w p ++ filesRead w (f (run w p)))%list.
Proof. induction p; cbn [bindP filesRead run app]; [done|auto|by f_equal]. Qed.

Lemma draws_bindP {A B : Type} (w : World) (p : Prog A) (f : A → Prog B) :
  draws w (bindP p f) = (draws w p + draws w (f (run w p)))%nat.
Proof.
  induction p as [a|k IH|path enc k IH]; cbn [bindP draws run]; [done| |by apply IH].
  by rewrite IH.
Qed.

Lemma getAnimalRoute_asks `{!Builtins} (JSON_parse : string → result value) (w : World)
    (q : gmap string qvalue) (variant : string) :
  variantParam q = Ok variant →
  filesRead w (getAnimalRoute JSON_parse q) = (if decide (variant = "") then [] else [jsonPath])
  ∧ draws w (getAnimalRoute JSON_parse q) = 0.
Proof.
  intros Hv. destruct (decide (variant = "")) as [->|Hne].
  - by rewrite getAnimalRoute_blank.
  - unfold getAnimalRoute. rewrite Hv, awaitA_Ok.
    apply truthy_VStr in Hne. rewrite Hne. cbn [negb].
    unfold tryCatch, awaitA. rewrite !filesRead_bindP, !draws_bindP, !run_bindP.
    destruct (run w (findAnimalByVariant JSON_parse variant)) as [animal|err]; [|done].
    destruct (truthy animal); cbn [negb]; [|done].
    unfold liftR. cbn [bindP run]. by destruct (animalPage animal).
Qed.

Lemma colorRoute_asks `{!Builtins} (w : World) (q : gmap string qvalue) :
  filesRead w (colorRoute q) = [] ∧ (draws w (colorRoute q) ≤ 1)%nat.
Proof.
  unfold colorRoute. destruct (variantParam_total q) as [variant ->]. rewrite awaitA_Ok.
  destruct (truthy (VStr variant)); [|split; [done|cbn; lia]].
  destruct (Array_find_total
    (λ color, eqCi (VStr (color_variant color)) (VStr variant)) colors) as [found ->].
  { intros c. apply eqCi_strings_total. }
  rewrite awaitA_Ok. destruct found; (split; [done|cbn; lia]).
Qed.

(** X12: serving one request reads at most one file and draws at most one
    random number.  The only file ever read is the animals file, and it is
    read exactly when the request is a GET to [/get-animal] with a variant
    that is not blank; a random number is drawn only by [/color]. *)
Theorem handler_asks `{!Builtins} (JSON_parse : string → result value) (req : Request) (w : World) :
  (filesRead w (handler JSON_parse req) = []
   ∨ filesRead w (handler JSON_parse req) = [jsonPath])
  ∧ (filesRead w (handler JSON_parse req) = [jsonPath]
     ↔ method req = "GET" ∧ pathname (url req) = Some "/get-animal"
       ∧ variantParam (query (url req)) ≠ Ok "")
  ∧ (draws w (handler JSON_parse req) ≤ 1)%nat
  ∧ (draws w (handler JSON_parse req) = 1 →
       method req = "GET" ∧ pathname (url req) = Some "/color").
Proof.
  destruct (handler_dispatch JSON_parse req)
    as [Hm ->|Hm Hp ->|Hm Hp ->|Hm Hp ->|Hm Hp ->|Hm Hp ->].
  - cbn. split; [by left|]. split; [|split; [lia|done]].
    split; [done|]. by intros (? & _).
  - cbn. split; [by left|]. split; [|split; [lia|done]].
    split; [done|]. rewrite Hp. by intros (_ & ? & _).
  - destruct (colorRoute_asks w (query (url req))) as [-> Hd].
    split; [by left|]. split; [|done].
    split; [done|]. rewrite Hp. by intros (_ & ? & _).
  - cbn. split; [by left|]. split; [|split; [lia|done]].
    split; [done|]. rewrite Hp. by intros (_ & ? & _).
  - destruct (variantParam_total (query (url req))) as [variant Hv].
    destruct (getAnimalRoute_asks JSON_parse w _ _ Hv) as [-> ->].
    rewrite Hv. destruct (decide (variant = "")) as [->|Hne].
    + split; [by left|]. split; [|split; [lia|done]].
      split; [done|]. by intros (_ & _ & ?).
    + split; [by right|]. split; [|split; [lia|done]].
      split; [|done]. intros _. split; [done|]. split; [done|]. congruence.
  - cbn. split; [by left|]. split; [|split; [lia|done]].
    split; [done|]. intros (_ & Hpath & _). exfalso. apply (Hp "/get-animal"); [|done].
    unfold routes. rewrite !elem_of_cons. auto 6.
Qed.

(** ** Percent-encoding *)

Lemma hexDigit_unreserved (n : nat) : (n < 16)%nat → isUnreserved (hexDigit n) = true.
Proof. intros H. do 16 (destruct n as [|n]; [reflexivity|]). lia. Qed.

Lemma nat_of_ascii_lt (c : ascii) : (nat_of_ascii c < 256)%nat.
Proof. apply nat_ascii_bounded. Qed.

(** X13: the text [encodeURIComponent] returns is made of unreserved
    characters and percent signs only, so it holds no quote, no space and no
    ampersand; a text of unreserved characters is returned unchanged. *)
Theorem encodeURIComponent_safe (s : string) :
  Forall (λ c, isUnreserved c = true ∨ c = "%"%char)
         (list_ascii_of_string (encodeURIComponent s))
  ∧ (∀ c, c ∈ [" "; "&"; "034"; "<"; ">"; "?"; "="; "#"]%char →
       c ∉ list_ascii_of_string (encodeURIComponent s))
  ∧ (forallb isUnreserved (list_ascii_of_string s) = true → encodeURIComponent s = s).
Proof.
  assert (Forall (λ c, isUnreserved c = true ∨ c = "%"%char)
            (list_ascii_of_string (encodeURIComponent s))) as Hsafe.
  { induction s as [|c s IH]; [constructor|]. cbn [encodeURIComponent].
    destruct (isUnreserved c) eqn:Hc; cbn [list_ascii_of_string].
    - constructor; [by left|done].
    - pose proof (nat_of_ascii_lt c) as Hlt.
      constructor; [by right|]. constructor.
      { left. apply hexDigit_unreserved. apply Nat.Div0.div_lt_upper_bound. lia. }
      constructor; [|done].
      left. apply hexDigit_unreserved. apply Nat.mod_upper_bound. lia. }
  split; [done|]. split.
  - intros c Hc Hin. rewrite Forall_forall in Hsafe. specialize (Hsafe c Hin).
    rewrite !elem_of_cons, elem_of_nil in Hc.
    destruct Hc as [->|[->|[->|[->|[->|[->|[->|[->|[]]]]]]]]];
      destruct Hsafe; discriminate.
  - clear Hsafe. induction s as [|c s IH]; [done|].
    cbn [list_ascii_of_string forallb encodeURIComponent].
    intros [Hc Hs]%andb_prop. rewrite Hc. by rewrite IH.
Qed.
